(** * OCRService: text extraction from PDFs and images

    A shallow embedding of [api/app/services/ocr_service.py] and the
    properties of its three extraction methods.

    The Python class is a thin layer over four external collaborators:
    [pdf2image.convert_from_path], [PIL.Image.open],
    [pytesseract.image_to_string] and the operating system
    ([tempfile.NamedTemporaryFile], [file.write], [os.unlink]).  They are
    not code of the service: the development is parametric in them
    (class [Toolchain]).  What the service itself does with them, the
    order of the calls, the page numbering, the trimming, the staging of a
    temporary file and the [try]/[finally] around the dispatch, is
    written out below as the source has it. *)

From Stdlib Require Import ZArith NArith String Ascii.
From stdpp Require Import base numbers list strings gmap.

(** ** Python values *)

(** A Python [str] is a sequence of Unicode code points, a [bytes] object
    a sequence of bytes. *)
Abbreviation pystr := (list N) (only parsing).
Abbreviation bytes := (list Byte.byte) (only parsing).

(** String literals of the source ([lit "pdf"] is the Python ["pdf"]). *)
Definition lit (s : string) : pystr :=
  N_of_ascii <$> list_ascii_of_string s.

(** [str.isspace] on one code point, as CPython's
    [_PyUnicode_IsWhitespace] has it. *)
Definition isspace (c : N) : bool :=
  ((9 <=? c) && (c <=? 13) || (28 <=? c) && (c <=? 32)
   || (c =? 133) || (c =? 160) || (c =? 5760)
   || (8192 <=? c) && (c <=? 8202)
   || (c =? 8232) || (c =? 8233) || (c =? 8239) || (c =? 8287)
   || (c =? 12288))%N.

(** [str.lstrip()], [str.rstrip()] and [str.strip()] without argument. *)
Fixpoint lstrip (s : pystr) : pystr :=
  match s with
  | [] => []
  | c :: s' => if isspace c then lstrip s' else s
  end.

Definition rstrip (s : pystr) : pystr := reverse (lstrip (reverse s)).

Definition strip (s : pystr) : pystr := rstrip (lstrip s).

(** ** The process state *)

(** An instance of [OCRService]: its only attribute is [lang]. *)
Record OCRService := mkOCRService { lang : pystr }.

(** Every call of an external collaborator is recorded, with the arguments
    the service passed. *)
Inductive Event {Image : Type} :=
| EvTmpCreate (suffix : pystr)
| EvWrite (path : pystr) (data : bytes)
| EvUnlink (path : pystr)
| EvRasterize (path : pystr) (dpi : Z)
| EvOpen (path : pystr)
| EvRecognize (cmd : pystr) (image : Image) (language : pystr).
Arguments Event : clear implicits.

(** The state a call runs in: the filesystem, the module attribute
    [pytesseract.pytesseract.tesseract_cmd], the instances of the class
    (an object is named by its index) and the calls made so far. *)
Record World {Image : Type} := mkWorld {
  files : gmap pystr bytes;
  tesseract_cmd : pystr;
  objects : list OCRService;
  calls : list (Event Image)
}.
Arguments World : clear implicits.
Arguments mkWorld {Image} _ _ _ _.

(** An exception is either one an external collaborator raised, or the
    [AttributeError] of reading [self.lang] on something that is not an
    instance (no Python caller can produce it). *)
Inductive exn {Exn : Type} :=
| External (e : Exn)
| AttributeError.
Arguments exn : clear implicits.

(** ** The external collaborators *)

(** The rasteriser and the image library read the file at the path they
    are given: their answer is a function of what is found there ([None]:
    no such file).  The OCR engine is run through the executable named by
    [tesseract_cmd], and what it answers for a page is taken to be a
    function of the executable, the page and the language.  Files that a
    collaborator makes and removes for its own use inside one call (the
    engine binding saves the page it is given before it runs the
    executable) are not among the [files] of the world: [files] holds the
    documents and the temporary file of the service.  The operating
    system chooses the name of a temporary file and decides whether a
    creation, a write or a deletion fails. *)
Class Toolchain (Image Exn : Type) := {
  rasterize : option bytes -> Z -> Exn + list Image;
  decode_image : option bytes -> Exn + Image;
  recognize : pystr -> Image -> pystr -> Exn + pystr;
  tmp_stem : gmap pystr bytes -> pystr -> Exn + pystr;
  write_error : gmap pystr bytes -> pystr -> bytes -> option Exn;
  unlink_error : gmap pystr bytes -> pystr -> option Exn
}.

Section Service.
Context {Image Exn : Type} `{TC : Toolchain Image Exn}.

Abbreviation world := (World Image).
Abbreviation error := (exn Exn).

(** ** Computations: state and exceptions *)

(** A statement runs in a world and either returns or raises; what it did
    to the world before raising stays done. *)
Definition M (A : Type) : Type := world -> (error + A) * world.

Definition ret {A} (a : A) : M A := fun w => (inr a, w).

Definition bind {A B} (m : M A) (k : A -> M B) : M B := fun w =>
  match m w with
  | (inl e, w') => (inl e, w')
  | (inr a, w') => k a w'
  end.

(** [try: body finally: final].  The [finally] block always runs; if it
    raises, its exception replaces the outcome of the body, otherwise the
    outcome of the body (a returned value or an exception) stands. *)
Definition try_finally {A} (body : M A) (final : M unit) : M A := fun w =>
  let '(r, w1) := body w in
  match final w1 with
  | (inl e, w2) => (inl e, w2)
  | (inr _, w2) => (r, w2)
  end.

Notation "x <~ m ; k" := (bind m (fun x => k))
  (at level 100, m at next level, right associativity).

(** The world after one more recorded call. *)
Definition record_call (ev : Event Image) (w : world) : world :=
  mkWorld (files w) (tesseract_cmd w) (objects w) (calls w ++ [ev]).

Definition set_files (fs : gmap pystr bytes) (w : world) : world :=
  mkWorld fs (tesseract_cmd w) (objects w) (calls w).

(** The outcome of an external call as an outcome of the service. *)
Definition external {A} (r : Exn + A) : error + A :=
  match r with
  | inl e => inl (External e)
  | inr a => inr a
  end.

(** ** The collaborators as statements *)

(** [convert_from_path(pdf_path, dpi=dpi)] *)
Definition convert_from_path (pdf_path : pystr) (dpi : Z) : M (list Image) :=
  fun w => (external (rasterize (files w !! pdf_path) dpi),
            record_call (EvRasterize pdf_path dpi) w).

(** [Image.open(image_path)] *)
Definition Image_open (image_path : pystr) : M Image :=
  fun w => (external (decode_image (files w !! image_path)),
            record_call (EvOpen image_path) w).

(** [pytesseract.image_to_string(image, lang=language)] *)
Definition image_to_string (image : Image) (language : pystr) : M pystr :=
  fun w => (external (recognize (tesseract_cmd w) image language),
            record_call (EvRecognize (tesseract_cmd w) image language) w).

(** [tempfile.NamedTemporaryFile(suffix=suffix, delete=False)]: the file
    is created empty under a name that ends with the suffix; the value is
    its name ([tmp.name]). *)
Definition NamedTemporaryFile (suffix : pystr) : M pystr := fun w =>
  let w1 := record_call (EvTmpCreate suffix) w in
  match tmp_stem (files w) suffix with
  | inl e => (inl (External e), w1)
  | inr stem =>
      (inr (stem ++ suffix), set_files (<[stem ++ suffix := []]> (files w)) w1)
  end.

(** [tmp.write(file_bytes)] and the flush when the [with] block closes the
    file.  A failed write leaves the file as it was created. *)
Definition tmp_write (path : pystr) (data : bytes) : M unit := fun w =>
  let w1 := record_call (EvWrite path data) w in
  match write_error (files w) path data with
  | Some e => (inl (External e), w1)
  | None => (inr tt, set_files (<[path := data]> (files w)) w1)
  end.

(** [os.unlink(path)] *)
Definition os_unlink (path : pystr) : M unit := fun w =>
  let w1 := record_call (EvUnlink path) w in
  match unlink_error (files w) path with
  | Some e => (inl (External e), w1)
  | None => (inr tt, set_files (delete path (files w)) w1)
  end.

(** [self.lang] *)
Definition get_lang (self : nat) : M pystr := fun w =>
  match objects w !! self with
  | Some o => (inr (lang o), w)
  | None => (inl AttributeError, w)
  end.

(** ** The class *)

(** [OCRService.__init__(self, lang="tam")]: the new instance gets its
    [lang], and the module attribute [tesseract_cmd] is assigned.  The
    value is the new object. *)
Definition OCRService_init (lang_arg : option pystr) : M nat := fun w =>
  (inr (length (objects w)),
   mkWorld (files w) (lit "/usr/bin/tesseract")
           (objects w ++ [mkOCRService (default (lit "tam") lang_arg)])
           (calls w)).

(** The loop [for i, page in enumerate(pages, start=1)] of
    [extract_text_from_pdf], from index [i] on, with the [results]
    collected so far. *)
Fixpoint ocr_pages (self : nat) (i : Z) (pages : list Image)
    (results : list (Z * pystr)) : M (list (Z * pystr)) :=
  match pages with
  | [] => ret results
  | page :: rest =>
      language <~ get_lang self;
      text <~ image_to_string page language;
      ocr_pages self (i + 1) rest (results ++ [(i, strip text)])
  end.

(** [extract_text_from_pdf(self, pdf_path, dpi=300)]; [None] is the call
    that leaves [dpi] out. *)
Definition extract_text_from_pdf (self : nat) (pdf_path : pystr)
    (dpi : option Z) : M (list (Z * pystr)) :=
  pages <~ convert_from_path pdf_path (default 300%Z dpi);
  ocr_pages self 1 pages [].

(** [extract_text_from_image(self, image_path)] *)
Definition extract_text_from_image (self : nat) (image_path : pystr)
    : M (list (Z * pystr)) :=
  image <~ Image_open image_path;
  language <~ get_lang self;
  text <~ image_to_string image language;
  ret [(1%Z, strip text)].

(** The [with] block of [extract_from_bytes]: create the file, write the
    bytes, keep the name. *)
Definition stage (file_bytes : bytes) (file_type : pystr) : M pystr :=
  tmp <~ NamedTemporaryFile (lit "." ++ file_type);
  _ <~ tmp_write tmp file_bytes;
  ret tmp.

(** The body of the [try] of [extract_from_bytes]. *)
Definition dispatch (self : nat) (file_type tmp_path : pystr)
    : M (list (Z * pystr)) :=
  if decide (file_type = lit "pdf")
  then extract_text_from_pdf self tmp_path None
  else extract_text_from_image self tmp_path.

(** [extract_from_bytes(self, file_bytes, file_type)] *)
Definition extract_from_bytes (self : nat) (file_bytes : bytes)
    (file_type : pystr) : M (list (Z * pystr)) :=
  tmp_path <~ stage file_bytes file_type;
  try_finally (dispatch self file_type tmp_path) (os_unlink tmp_path).

(** ** Observations on a run *)

(** The world after the calls [evs] were recorded and nothing else
    changed. *)
Definition add_calls (evs : list (Event Image)) (w : world) : world :=
  mkWorld (files w) (tesseract_cmd w) (objects w) (calls w ++ evs).

(** The calls a run from [w] to [w'] made. *)
Definition new_calls (w w' : world) : list (Event Image) :=
  drop (length (calls w)) (calls w').

(** The name of the temporary file of [extract_from_bytes] when the
    operating system picked [stem], and the world once the bytes are
    staged under it. *)
Definition tmp_name (stem file_type : pystr) : pystr :=
  stem ++ lit "." ++ file_type.

Definition staged (stem file_type : pystr) (file_bytes : bytes) (w : world)
    : world :=
  set_files (<[tmp_name stem file_type := file_bytes]> (files w))
    (add_calls [EvTmpCreate (lit "." ++ file_type);
                EvWrite (tmp_name stem file_type) file_bytes] w).

(** The first call of the dispatched method. *)
Definition first_call (file_type tmp_path : pystr) : Event Image :=
  if decide (file_type = lit "pdf")
  then EvRasterize tmp_path 300%Z
  else EvOpen tmp_path.

(** An event that respects the configuration: a rasterisation is done at
    [dpi], a recognition through the executable [cmd] in language [l]. *)
Definition event_ok (cmd l : pystr) (dpi : Z) (ev : Event Image) : Prop :=
  match ev with
  | EvRasterize _ d => d = dpi
  | EvRecognize c _ l' => c = cmd /\ l' = l
  | _ => True
  end.

(** The three extraction operations of an instance. *)
Inductive Op :=
| OpPdf (pdf_path : pystr) (dpi : option Z)
| OpImage (image_path : pystr)
| OpBytes (file_bytes : bytes) (file_type : pystr).

Definition run_op (self : nat) (op : Op) : M (list (Z * pystr)) :=
  match op with
  | OpPdf pdf_path dpi => extract_text_from_pdf self pdf_path dpi
  | OpImage image_path => extract_text_from_image self image_path
  | OpBytes file_bytes file_type => extract_from_bytes self file_bytes file_type
  end.

(** The resolution an operation rasterises at, if it rasterises. *)
Definition dpi_of (op : Op) : Z :=
  match op with
  | OpPdf _ dpi => default 300%Z dpi
  | _ => 300%Z
  end.

End Service.

(** The rasterisations, recognitions and deletions among some calls. *)
Definition rasterizations {Image} (evs : list (Event Image))
    : list (pystr * Z) :=
  omap (fun ev => match ev with
                  | EvRasterize p d => Some (p, d)
                  | _ => None
                  end) evs.

Definition recognitions {Image} (evs : list (Event Image))
    : list (pystr * Image * pystr) :=
  omap (fun ev => match ev with
                  | EvRecognize c i l => Some (c, i, l)
                  | _ => None
                  end) evs.

Definition unlinks {Image} (evs : list (Event Image)) : list pystr :=
  omap (fun ev => match ev with
                  | EvUnlink p => Some p
                  | _ => None
                  end) evs.

Definition opens {Image} (evs : list (Event Image)) : list pystr :=
  omap (fun ev => match ev with
                  | EvOpen p => Some p
                  | _ => None
                  end) evs.

(** A result as the methods build it: the page numbers are 1, 2, ... up
    to the number of entries, and no text has whitespace left at either
    end. *)
Definition well_formed_result (result : list (Z * pystr)) : Prop :=
  result.*1 = seqZ 1 (Z.of_nat (length result))
  /\ Forall (fun entry => strip entry.2 = entry.2) result.

(** A call of the service other than the three calls on a temporary
    file (creation, write, deletion). *)
Definition no_file_call {Image} (ev : Event Image) : Prop :=
  match ev with
  | EvTmpCreate _ | EvWrite _ _ | EvUnlink _ => False
  | _ => True
  end.

(** [t] is [s] without its leading and trailing whitespace. *)
Definition trimmed_of (t s : pystr) : Prop :=
  exists l r,
    s = l ++ t ++ r
    /\ Forall (fun c => isspace c = true) l
    /\ Forall (fun c => isspace c = true) r
    /\ (forall c, head t = Some c -> isspace c = false)
    /\ (forall c, last t = Some c -> isspace c = false).

(** ** A small toolchain to run the service on *)

(** An image is the text printed on the page; an exception is its
    message.  The rasteriser lays out the pages of [doc] for any file
    that is not empty; the engine reads a page as it is printed, is only
    found at [/usr/bin/tesseract], and fails on a page that starts with
    the code point 0.  The switches make the operating system refuse a
    creation, a write or a deletion. *)
Module Sim.

Record Setup := mkSetup {
  doc : list pystr;
  create_ok : bool;
  write_ok : bool;
  unlink_ok : bool
}.

Definition unreadable (image : pystr) : bool :=
  bool_decide (head image = Some 0%N).

Definition toolchain (s : Setup) : Toolchain pystr string := {|
  rasterize content dpi :=
    match content with
    | None => inl "PDFPageCountError: unable to get page count"
    | Some [] => inl "PDFSyntaxError: may not be a PDF file"
    | Some _ => inr (doc s)
    end;
  decode_image content :=
    match content with
    | None => inl "FileNotFoundError"
    | Some [] => inl "UnidentifiedImageError"
    | Some _ => inr (hd [] (doc s))
    end;
  recognize cmd image language :=
    if bool_decide (cmd = lit "/usr/bin/tesseract")
    then if unreadable image then inl "TesseractError" else inr image
    else inl "TesseractNotFoundError";
  tmp_stem fs suffix :=
    if create_ok s then inr (lit "/tmp/tmpq3k9x1ab")
    else inl "FileNotFoundError: no usable temporary directory";
  write_error fs path data :=
    if write_ok s then None
    else Some "OSError: [Errno 28] No space left on device";
  unlink_error fs path :=
    if unlink_ok s then None
    else Some "PermissionError: [Errno 13] Permission denied"
|}.

(** A fresh process ([pytesseract] starts with ["tesseract"] as its
    executable), and the same process after [OCRService()]. *)
Definition boot : World pystr :=
  mkWorld ∅ (lit "tesseract") [] [].

Definition started : World pystr :=
  snd (OCRService_init (Exn := string) None boot).

(** The same process with a file [/data/scan.pdf] on disk. *)
Definition with_file (content : bytes) : World pystr :=
  set_files (<[lit "/data/scan.pdf" := content]> (files started)) started.

(** [OCRService().extract_from_bytes(content, "pdf")] on a system. *)
Definition pdf_of_bytes (s : Setup) (content : bytes)
    : (exn string + list (Z * pystr)) * World pystr :=
  extract_from_bytes (TC := toolchain s) 0 content (lit "pdf") started.

(** The three pages of the Tamil scenario, as the engine prints them
    (with the whitespace it adds), and a page it cannot read. *)
Definition vanakkam : pystr :=
  [2997; 2979; 2965; 3021; 2965; 2990; 3021]%N.
Definition ulagam : pystr := [2953; 2994; 2965; 2990; 3021]%N.
Definition tamil_doc : list pystr :=
  [vanakkam ++ [10; 12]%N; [32]%N ++ ulagam ++ [10]%N; [10; 12]%N].
Definition damaged_doc : list pystr :=
  [vanakkam ++ [10]%N; [0]%N; ulagam].

Definition fine (d : list pystr) : Setup := mkSetup d true true true.
Definition no_tmp_dir (d : list pystr) : Setup := mkSetup d false true true.
Definition disk_full (d : list pystr) : Setup := mkSetup d true false true.
Definition locked (d : list pystr) : Setup := mkSetup d true true false.

Definition some_bytes : bytes := [Byte.x25; Byte.x50; Byte.x44; Byte.x46].

Definition scan : pystr := lit "/data/scan.pdf".
Definition stem : pystr := lit "/tmp/tmpq3k9x1ab".
Definition tmp_pdf : pystr := lit "/tmp/tmpq3k9x1ab.pdf".
Definition tam : OCRService := mkOCRService (lit "tam").

End Sim.

(** * Properties *)

(** ** Trimming *)

Lemma lstrip_decompose (s : pystr) :
  exists l, s = l ++ lstrip s /\ Forall (fun c => isspace c = true) l.
Proof.
  induction s as [|c s [l [Hs Hl]]]; simpl.
  - exists []. split; [reflexivity | constructor].
  - destruct (isspace c) eqn:Hc.
    + exists (c :: l). split; [simpl; congruence | constructor; assumption].
    + exists []. split; [reflexivity | constructor].
Qed.

Lemma lstrip_head (s : pystr) (c : N) :
  head (lstrip s) = Some c -> isspace c = false.
Proof.
  induction s as [|d s IH]; simpl; [discriminate|].
  destruct (isspace d) eqn:Hd; [exact IH|].
  simpl. intros [= <-]. exact Hd.
Qed.

Lemma rstrip_decompose (s : pystr) :
  exists r, s = rstrip s ++ r /\ Forall (fun c => isspace c = true) r.
Proof.
  destruct (lstrip_decompose (reverse s)) as [l [Hs Hl]].
  exists (reverse l). split.
  - unfold rstrip. rewrite <- reverse_app, <- Hs, reverse_involutive.
    reflexivity.
  - apply Forall_reverse. exact Hl.
Qed.

Lemma rstrip_last (s : pystr) (c : N) :
  last (rstrip s) = Some c -> isspace c = false.
Proof.
  unfold rstrip. rewrite last_reverse. apply lstrip_head.
Qed.

Lemma head_prefix (t r : pystr) (c : N) :
  head t = Some c -> head (t ++ r) = Some c.
Proof. destruct t; simpl; [discriminate | trivial]. Qed.

Lemma strip_trimmed (s : pystr) : trimmed_of (strip s) s.
Proof.
  destruct (lstrip_decompose s) as [l [Hs Hl]].
  destruct (rstrip_decompose (lstrip s)) as [r [Hr Hr']].
  exists l, r. unfold strip. repeat split; try assumption.
  - rewrite <- Hr. exact Hs.
  - intros c Hc. apply (lstrip_head s). rewrite Hr.
    apply head_prefix. exact Hc.
  - apply rstrip_last.
Qed.

(** Text without whitespace at either end is left as it is. *)
Lemma lstrip_id (s : pystr) :
  (forall c, head s = Some c -> isspace c = false) -> lstrip s = s.
Proof.
  destruct s as [|c s]; simpl; [reflexivity|].
  intros H. rewrite (H c eq_refl). reflexivity.
Qed.

Lemma strip_idempotent (s : pystr) : strip (strip s) = strip s.
Proof.
  destruct (strip_trimmed s) as [l [r [_ [_ [_ [Hh Hl]]]]]].
  unfold strip at 1. rewrite (lstrip_id _ Hh).
  unfold rstrip. rewrite lstrip_id, reverse_involutive; [reflexivity|].
  intros c. rewrite head_reverse. apply Hl.
Qed.

(** ** Runs of the page loop and of the path-based methods *)

Section Runs.
Context {Image Exn : Type} `{TC : Toolchain Image Exn}.

Abbreviation world := (World Image).

Lemma record_call_add (ev : Event Image) (w : world) :
  record_call ev w = add_calls [ev] w.
Proof. reflexivity. Qed.

Lemma add_calls_add (evs1 evs2 : list (Event Image)) (w : world) :
  add_calls evs2 (add_calls evs1 w) = add_calls (evs1 ++ evs2) w.
Proof. unfold add_calls; simpl. rewrite app_assoc. reflexivity. Qed.

Lemma new_calls_app (w w' : world) (evs : list (Event Image)) :
  calls w' = calls w ++ evs -> new_calls w w' = evs.
Proof. intros H. unfold new_calls. rewrite H. apply drop_app_length. Qed.

Lemma new_calls_add (w : world) (evs : list (Event Image)) :
  new_calls w (add_calls evs w) = evs.
Proof. apply new_calls_app. reflexivity. Qed.

Lemma seqZ_succ (i : Z) (n : nat) :
  seqZ i (Z.of_nat (S n)) = i :: seqZ (i + 1) (Z.of_nat n).
Proof.
  rewrite seqZ_cons by lia. f_equal. f_equal; lia.
Qed.

(** The loop on pages the engine reads: one entry per page, numbered from
    [i], and one recognition per page, in order. *)
Lemma ocr_pages_ok (self : nat) (o : OCRService) (cmd : pystr)
    (pages : list Image) (texts : list pystr) :
  Forall2 (fun page text => recognize cmd page (lang o) = inr text)
          pages texts ->
  forall (i : Z) (acc : list (Z * pystr)) (w : world),
  tesseract_cmd w = cmd ->
  objects w !! self = Some o ->
  ocr_pages self i pages acc w
  = (inr (acc ++ zip (seqZ i (Z.of_nat (length pages))) (strip <$> texts)),
     add_calls ((fun page => EvRecognize cmd page (lang o)) <$> pages) w).
Proof.
  induction 1 as [|page text pages texts Hpage Hall IH];
    intros i acc w Hcmd Ho.
  - simpl. unfold ret, add_calls. rewrite !app_nil_r. destruct w; reflexivity.
  - cbn [ocr_pages]. unfold bind at 1. unfold get_lang. rewrite Ho.
    unfold bind at 1. unfold image_to_string. rewrite Hcmd, Hpage.
    cbn [external]. rewrite IH by assumption.
    cbn [length]. rewrite seqZ_succ. cbn [fmap list_fmap zip zip_with].
    rewrite <- app_assoc. cbn [app]. f_equal.
    rewrite record_call_add, add_calls_add. reflexivity.
Qed.

(** The loop when the engine fails on a page: the exception of the engine
    leaves the loop; the pages before were recognised once each, the
    failing page once, the pages after it not at all. *)
Lemma ocr_pages_fail (self : nat) (o : OCRService) (cmd : pystr)
    (before : list Image) (texts : list pystr) (bad : Image)
    (after : list Image) (e : Exn) :
  Forall2 (fun page text => recognize cmd page (lang o) = inr text)
          before texts ->
  recognize cmd bad (lang o) = inl e ->
  forall (i : Z) (acc : list (Z * pystr)) (w : world),
  tesseract_cmd w = cmd ->
  objects w !! self = Some o ->
  ocr_pages self i (before ++ bad :: after) acc w
  = (inl (External e),
     add_calls ((fun page => EvRecognize cmd page (lang o))
                  <$> (before ++ [bad])) w).
Proof.
  intros Hall Hbad.
  induction Hall as [|page text pages texts Hpage Hall IH];
    intros i acc w Hcmd Ho.
  - cbn [app ocr_pages]. unfold bind at 1. unfold get_lang. rewrite Ho.
    unfold bind at 1. unfold image_to_string. rewrite Hcmd, Hbad.
    reflexivity.
  - cbn [app ocr_pages]. unfold bind at 1. unfold get_lang. rewrite Ho.
    unfold bind at 1. unfold image_to_string. rewrite Hcmd, Hpage.
    cbn [external]. rewrite IH by assumption.
    rewrite record_call_add, add_calls_add. reflexivity.
Qed.

(** Whatever the engine answers, the loop only adds recognitions, all
    through the executable and in the language the world and the instance
    had when it started. *)
Lemma ocr_pages_effect (self : nat) (o : OCRService) (pages : list Image) :
  forall (i : Z) (acc : list (Z * pystr)) (w : world),
  objects w !! self = Some o ->
  exists seen : list Image,
    snd (ocr_pages self i pages acc w)
    = add_calls ((fun page => EvRecognize (tesseract_cmd w) page (lang o))
                   <$> seen) w.
Proof.
  induction pages as [|page pages IH]; intros i acc w Ho.
  - exists []. simpl. unfold add_calls. rewrite app_nil_r.
    destruct w; reflexivity.
  - cbn [ocr_pages]. unfold bind at 1. unfold get_lang. rewrite Ho.
    unfold bind at 1. unfold image_to_string.
    destruct (recognize (tesseract_cmd w) page (lang o)) as [e|text];
      cbn [external].
    + exists [page]. reflexivity.
    + destruct (IH (i + 1)%Z (acc ++ [(i, strip text)])
                  (record_call (EvRecognize (tesseract_cmd w) page (lang o)) w)
                  Ho) as [seen Hseen].
      exists (page :: seen). rewrite Hseen.
      rewrite record_call_add, add_calls_add. reflexivity.
Qed.

(** The outcome of the loop depends on the world only through the
    executable path and the instance. *)
Lemma ocr_pages_result_ext (self : nat) (pages : list Image) :
  forall (i : Z) (acc : list (Z * pystr)) (w1 w2 : world),
  tesseract_cmd w1 = tesseract_cmd w2 ->
  objects w1 !! self = objects w2 !! self ->
  fst (ocr_pages self i pages acc w1) = fst (ocr_pages self i pages acc w2).
Proof.
  induction pages as [|page pages IH]; intros i acc w1 w2 Hcmd Hobj.
  - reflexivity.
  - cbn [ocr_pages]. unfold bind at 1 3. unfold get_lang. rewrite Hobj.
    destruct (objects w2 !! self) as [o|] eqn:Ho2; [|reflexivity].
    unfold bind at 1 2. unfold image_to_string. rewrite Hcmd.
    destruct (recognize (tesseract_cmd w2) page (lang o)) as [e|text];
      cbn [external]; [reflexivity|].
    apply IH; [exact Hcmd | cbn [objects record_call]; congruence].
Qed.

Lemma extract_text_from_pdf_effect (self : nat) (o : OCRService)
    (pdf_path : pystr) (dpi : option Z) (w : world) :
  objects w !! self = Some o ->
  exists seen : list Image,
    snd (extract_text_from_pdf self pdf_path dpi w)
    = add_calls (EvRasterize pdf_path (default 300%Z dpi)
                 :: ((fun page => EvRecognize (tesseract_cmd w) page (lang o))
                       <$> seen)) w.
Proof.
  intros Ho. unfold extract_text_from_pdf, bind, convert_from_path.
  destruct (rasterize (files w !! pdf_path) (default 300%Z dpi))
    as [e|pages]; cbn [external].
  - exists []. reflexivity.
  - destruct (ocr_pages_effect self o pages 1%Z []
                (record_call (EvRasterize pdf_path (default 300%Z dpi)) w) Ho)
      as [seen Hseen].
    exists seen. rewrite Hseen, record_call_add, add_calls_add. reflexivity.
Qed.

Lemma extract_text_from_image_effect (self : nat) (o : OCRService)
    (image_path : pystr) (w : world) :
  objects w !! self = Some o ->
  exists seen : list Image,
    snd (extract_text_from_image self image_path w)
    = add_calls (EvOpen image_path
                 :: ((fun page => EvRecognize (tesseract_cmd w) page (lang o))
                       <$> seen)) w.
Proof.
  intros Ho. unfold extract_text_from_image, bind, Image_open.
  destruct (decode_image (files w !! image_path)) as [e|image];
    cbn [external].
  - exists []. reflexivity.
  - unfold get_lang. cbn [objects record_call]. rewrite Ho.
    unfold image_to_string. cbn [tesseract_cmd record_call].
    exists [image].
    destruct (recognize (tesseract_cmd w) image (lang o)) as [e|text];
      cbn [external]; unfold ret; simpl;
      rewrite !record_call_add, add_calls_add; reflexivity.
Qed.

Lemma extract_text_from_pdf_result_ext (self : nat) (p1 p2 : pystr)
    (dpi : option Z) (w1 w2 : world) :
  files w1 !! p1 = files w2 !! p2 ->
  tesseract_cmd w1 = tesseract_cmd w2 ->
  objects w1 !! self = objects w2 !! self ->
  fst (extract_text_from_pdf self p1 dpi w1)
  = fst (extract_text_from_pdf self p2 dpi w2).
Proof.
  intros Hf Hcmd Hobj. unfold extract_text_from_pdf, bind, convert_from_path.
  rewrite Hf.
  destruct (rasterize (files w2 !! p2) (default 300%Z dpi)) as [e|pages];
    cbn [external]; [reflexivity|].
  apply ocr_pages_result_ext; assumption.
Qed.

Lemma extract_text_from_image_result_ext (self : nat) (p1 p2 : pystr)
    (w1 w2 : world) :
  files w1 !! p1 = files w2 !! p2 ->
  tesseract_cmd w1 = tesseract_cmd w2 ->
  objects w1 !! self = objects w2 !! self ->
  fst (extract_text_from_image self p1 w1)
  = fst (extract_text_from_image self p2 w2).
Proof.
  intros Hf Hcmd Hobj. unfold extract_text_from_image, bind, Image_open.
  rewrite Hf.
  destruct (decode_image (files w2 !! p2)) as [e|image];
    cbn [external]; [reflexivity|].
  unfold get_lang. cbn [objects record_call]. rewrite Hobj.
  destruct (objects w2 !! self) as [o|]; [|reflexivity].
  unfold image_to_string. cbn [tesseract_cmd record_call]. rewrite Hcmd.
  destruct (recognize (tesseract_cmd w2) image (lang o)); reflexivity.
Qed.

(** ** Staging and dispatch *)

Lemma stage_ok (file_bytes : bytes) (file_type stem : pystr) (w : world) :
  tmp_stem (files w) (lit "." ++ file_type) = inr stem ->
  write_error (<[tmp_name stem file_type := []]> (files w))
              (tmp_name stem file_type) file_bytes = None ->
  stage file_bytes file_type w
  = (inr (tmp_name stem file_type), staged stem file_type file_bytes w).
Proof.
  intros Hstem Hwrite. unfold stage, bind, NamedTemporaryFile.
  rewrite Hstem. fold (tmp_name stem file_type).
  unfold tmp_write. cbn [files set_files]. rewrite Hwrite.
  unfold ret, staged, set_files, add_calls, record_call. cbn.
  rewrite insert_insert_eq, <- app_assoc. reflexivity.
Qed.

Lemma stage_create_fails (file_bytes : bytes) (file_type : pystr) (e : Exn)
    (w : world) :
  tmp_stem (files w) (lit "." ++ file_type) = inl e ->
  stage file_bytes file_type w
  = (inl (External e), add_calls [EvTmpCreate (lit "." ++ file_type)] w).
Proof.
  intros Hstem. unfold stage, bind, NamedTemporaryFile.
  rewrite Hstem. reflexivity.
Qed.

(** A refused write: the file was created and stays. *)
Lemma stage_write_fails (file_bytes : bytes) (file_type stem : pystr)
    (e : Exn) (w : world) :
  tmp_stem (files w) (lit "." ++ file_type) = inr stem ->
  write_error (<[tmp_name stem file_type := []]> (files w))
              (tmp_name stem file_type) file_bytes = Some e ->
  stage file_bytes file_type w
  = (inl (External e),
     set_files (<[tmp_name stem file_type := []]> (files w))
       (add_calls [EvTmpCreate (lit "." ++ file_type);
                   EvWrite (tmp_name stem file_type) file_bytes] w)).
Proof.
  intros Hstem Hwrite. unfold stage, bind, NamedTemporaryFile.
  rewrite Hstem. fold (tmp_name stem file_type).
  unfold tmp_write. cbn [files set_files]. rewrite Hwrite.
  unfold set_files, add_calls, record_call. cbn.
  rewrite <- app_assoc. reflexivity.
Qed.

Lemma dispatch_effect (self : nat) (o : OCRService)
    (file_type tmp_path : pystr) (w : world) :
  objects w !! self = Some o ->
  exists seen : list Image,
    snd (dispatch self file_type tmp_path w)
    = add_calls (first_call file_type tmp_path
                 :: ((fun page => EvRecognize (tesseract_cmd w) page (lang o))
                       <$> seen)) w.
Proof.
  intros Ho. unfold dispatch, first_call.
  destruct (decide (file_type = lit "pdf")).
  - apply (extract_text_from_pdf_effect self o tmp_path None w Ho).
  - apply (extract_text_from_image_effect self o tmp_path w Ho).
Qed.

Lemma dispatch_result_ext (self : nat) (file_type p1 p2 : pystr)
    (w1 w2 : world) :
  files w1 !! p1 = files w2 !! p2 ->
  tesseract_cmd w1 = tesseract_cmd w2 ->
  objects w1 !! self = objects w2 !! self ->
  fst (dispatch self file_type p1 w1) = fst (dispatch self file_type p2 w2).
Proof.
  intros Hf Hcmd Hobj. unfold dispatch.
  destruct (decide (file_type = lit "pdf")).
  - apply extract_text_from_pdf_result_ext; assumption.
  - apply extract_text_from_image_result_ext; assumption.
Qed.

(** The whole of [extract_from_bytes] once the bytes are staged: the
    dispatched method runs on the temporary file, then the deletion is
    attempted, and its outcome decides both what the call returns and
    whether the file is still there. *)
Lemma extract_from_bytes_staged (self : nat) (o : OCRService)
    (file_bytes : bytes) (file_type stem : pystr) (w : world) :
  objects w !! self = Some o ->
  tmp_stem (files w) (lit "." ++ file_type) = inr stem ->
  write_error (<[tmp_name stem file_type := []]> (files w))
              (tmp_name stem file_type) file_bytes = None ->
  exists seen : list Image,
    extract_from_bytes self file_bytes file_type w
    = let p := tmp_name stem file_type in
      let evs :=
        [EvTmpCreate (lit "." ++ file_type); EvWrite p file_bytes;
         first_call file_type p]
        ++ ((fun page => EvRecognize (tesseract_cmd w) page (lang o))
              <$> seen)
        ++ [EvUnlink p] in
      match unlink_error (<[p := file_bytes]> (files w)) p with
      | None =>
          (fst (dispatch self file_type p
                  (staged stem file_type file_bytes w)),
           set_files (delete p (<[p := file_bytes]> (files w)))
                     (add_calls evs w))
      | Some e =>
          (inl (External e),
           set_files (<[p := file_bytes]> (files w)) (add_calls evs w))
      end.
Proof.
  intros Ho Hstem Hwrite.
  destruct (dispatch_effect self o file_type (tmp_name stem file_type)
              (staged stem file_type file_bytes w) Ho) as [seen Hseen].
  exists seen. unfold extract_from_bytes, bind.
  rewrite (stage_ok _ _ _ _ Hstem Hwrite). unfold try_finally.
  destruct (dispatch self file_type (tmp_name stem file_type)
              (staged stem file_type file_bytes w)) as [r w3].
  cbn [fst snd] in *. subst w3. unfold os_unlink.
  cbn [files add_calls staged set_files tesseract_cmd].
  destruct (unlink_error _ _) as [e|];
    unfold set_files, add_calls, record_call; cbn;
    rewrite <- !app_assoc; reflexivity.
Qed.

(** When the staging fails the call ends there: nothing is dispatched and
    no deletion is attempted. *)
Lemma extract_from_bytes_create_fails (self : nat) (file_bytes : bytes)
    (file_type : pystr) (e : Exn) (w : world) :
  tmp_stem (files w) (lit "." ++ file_type) = inl e ->
  extract_from_bytes self file_bytes file_type w
  = (inl (External e), add_calls [EvTmpCreate (lit "." ++ file_type)] w).
Proof.
  intros Hstem. unfold extract_from_bytes, bind.
  rewrite (stage_create_fails _ _ _ _ Hstem). reflexivity.
Qed.

Lemma extract_from_bytes_write_fails (self : nat) (file_bytes : bytes)
    (file_type stem : pystr) (e : Exn) (w : world) :
  tmp_stem (files w) (lit "." ++ file_type) = inr stem ->
  write_error (<[tmp_name stem file_type := []]> (files w))
              (tmp_name stem file_type) file_bytes = Some e ->
  extract_from_bytes self file_bytes file_type w
  = (inl (External e),
     set_files (<[tmp_name stem file_type := []]> (files w))
       (add_calls [EvTmpCreate (lit "." ++ file_type);
                   EvWrite (tmp_name stem file_type) file_bytes] w)).
Proof.
  intros Hstem Hwrite. unfold extract_from_bytes, bind.
  rewrite (stage_write_fails _ _ _ _ _ Hstem Hwrite). reflexivity.
Qed.

(** The outcome of [extract_from_bytes] in every case. *)
Lemma extract_from_bytes_outcome (self : nat) (o : OCRService)
    (file_bytes : bytes) (file_type : pystr) (w : world) :
  objects w !! self = Some o ->
  fst (extract_from_bytes self file_bytes file_type w)
  = match tmp_stem (files w) (lit "." ++ file_type) with
    | inl e => inl (External e)
    | inr stem =>
        let p := tmp_name stem file_type in
        match write_error (<[p := []]> (files w)) p file_bytes with
        | Some e => inl (External e)
        | None =>
            match unlink_error (<[p := file_bytes]> (files w)) p with
            | Some e => inl (External e)
            | None => fst (dispatch self file_type p
                             (staged stem file_type file_bytes w))
            end
        end
    end.
Proof.
  intros Ho.
  destruct (tmp_stem (files w) (lit "." ++ file_type)) as [e|stem] eqn:Hstem.
  - rewrite (extract_from_bytes_create_fails _ _ _ _ _ Hstem). reflexivity.
  - cbv zeta.
    destruct (write_error _ _ file_bytes) as [e|] eqn:Hwrite.
    + rewrite (extract_from_bytes_write_fails _ _ _ _ _ _ Hstem Hwrite).
      reflexivity.
    + destruct (extract_from_bytes_staged self o file_bytes file_type stem w
                  Ho Hstem Hwrite) as [seen ->].
      cbv zeta. destruct (unlink_error _ _); reflexivity.
Qed.

(** ** What a run records *)

Lemma Forall_recognize_ok (cmd l : pystr) (dpi : Z) (seen : list Image) :
  Forall (event_ok cmd l dpi)
         ((fun page => EvRecognize cmd page l) <$> seen).
Proof.
  apply Forall_fmap, Forall_forall. intros page _. split; reflexivity.
Qed.

Lemma first_call_ok (cmd l file_type p : pystr) :
  event_ok cmd l 300%Z (first_call (Image := Image) file_type p).
Proof.
  unfold first_call. destruct (decide (file_type = lit "pdf")); simpl; trivial.
Qed.

(** Every operation leaves the instances and [tesseract_cmd] as they
    were, and records only events that respect the configuration. *)
Lemma run_op_events (self : nat) (o : OCRService) (op : Op) (w : world) :
  objects w !! self = Some o ->
  exists evs : list (Event Image),
    calls (snd (run_op self op w)) = calls w ++ evs
    /\ objects (snd (run_op self op w)) = objects w
    /\ tesseract_cmd (snd (run_op self op w)) = tesseract_cmd w
    /\ Forall (event_ok (tesseract_cmd w) (lang o) (dpi_of op)) evs.
Proof.
  intros Ho. destruct op as [pdf_path dpi|image_path|file_bytes file_type];
    cbn [run_op dpi_of].
  - destruct (extract_text_from_pdf_effect self o pdf_path dpi w Ho)
      as [seen ->].
    eexists. repeat split. constructor; [reflexivity|].
    apply Forall_recognize_ok.
  - destruct (extract_text_from_image_effect self o image_path w Ho)
      as [seen ->].
    eexists. repeat split. constructor; [exact I|].
    apply Forall_recognize_ok.
  - destruct (tmp_stem (files w) (lit "." ++ file_type)) as [e|stem]
      eqn:Hstem.
    { rewrite (extract_from_bytes_create_fails _ _ _ _ _ Hstem).
      eexists. repeat split. repeat constructor. }
    destruct (write_error (<[tmp_name stem file_type := []]> (files w))
                (tmp_name stem file_type) file_bytes) as [e|] eqn:Hwrite.
    { rewrite (extract_from_bytes_write_fails _ _ _ _ _ _ Hstem Hwrite).
      eexists. repeat split. repeat constructor. }
    destruct (extract_from_bytes_staged self o file_bytes file_type stem w
                Ho Hstem Hwrite) as [seen ->].
    cbv zeta.
    destruct (unlink_error _ _); (eexists; repeat split;
      [rewrite !Forall_app; repeat split;
       [repeat constructor; apply first_call_ok
       | apply Forall_recognize_ok
       | repeat constructor]]).
Qed.

End Runs.

(** ** The path-based methods *)

Section PathBased.
Context {Image Exn : Type} `{TC : Toolchain Image Exn}.

(** C1.  For a PDF that the rasteriser turns into N pages (at the dpi of
    the call, given or defaulted) and whose pages the engine reads,
    [extract_text_from_pdf] returns exactly N entries; their page numbers
    are 1, 2, ..., N in this order; and the text of the k-th entry is what
    the engine answered for the k-th page, with the whitespace at both
    ends removed ([str.strip]). *)
Theorem extract_text_from_pdf_all_pages (self : nat) (o : OCRService)
    (pdf_path : pystr) (dpi : option Z) (pages : list Image)
    (texts : list pystr) (w : World Image) :
  objects w !! self = Some o ->
  rasterize (files w !! pdf_path) (default 300%Z dpi) = inr pages ->
  Forall2 (fun page text =>
             recognize (tesseract_cmd w) page (lang o) = inr text)
          pages texts ->
  exists result : list (Z * pystr),
    fst (extract_text_from_pdf self pdf_path dpi w) = inr result
    /\ length result = length pages
    /\ result.*1 = seqZ 1 (Z.of_nat (length pages))
    /\ result.*2 = strip <$> texts
    /\ Forall2 (fun entry text => trimmed_of entry.2 text) result texts.
Proof.
  intros Ho Hpages Hall.
  pose proof (Forall2_length _ _ _ Hall) as Hlen.
  exists (zip (seqZ 1 (Z.of_nat (length pages))) (strip <$> texts)).
  assert (Hseq : length (seqZ 1 (Z.of_nat (length pages)))
                 = length (strip <$> texts)).
  { rewrite length_seqZ, length_fmap. lia. }
  split; [|split; [|split; [|split]]].
  - unfold extract_text_from_pdf, bind, convert_from_path.
    rewrite Hpages. cbn [external].
    rewrite (ocr_pages_ok self o (tesseract_cmd w) pages texts Hall);
      [reflexivity | reflexivity | exact Ho].
  - rewrite length_zip, Hseq, length_fmap. lia.
  - apply fst_zip. lia.
  - apply snd_zip. lia.
  - apply Forall2_same_length_lookup. split.
    + rewrite length_zip, Hseq, length_fmap. lia.
    + intros k entry text Hentry Htext.
      apply lookup_zip_with_Some in Hentry
        as (n & t & -> & _ & Ht).
      rewrite list_lookup_fmap, Htext in Ht. injection Ht as <-.
      apply strip_trimmed.
Qed.

(** C4.  When the engine fails on a page of the PDF (the pages before it
    being read), [extract_text_from_pdf] raises the error of the engine:
    the outcome is that exception, not the entries collected so far.  The
    engine was called once on each page up to the failing one and on no
    page after it: the failing page is not tried again. *)
Theorem extract_text_from_pdf_aborts (self : nat) (o : OCRService)
    (pdf_path : pystr) (dpi : option Z) (before : list Image)
    (texts : list pystr) (bad : Image) (after : list Image) (e : Exn)
    (w : World Image) :
  objects w !! self = Some o ->
  rasterize (files w !! pdf_path) (default 300%Z dpi)
    = inr (before ++ bad :: after) ->
  Forall2 (fun page text =>
             recognize (tesseract_cmd w) page (lang o) = inr text)
          before texts ->
  recognize (tesseract_cmd w) bad (lang o) = inl e ->
  fst (extract_text_from_pdf self pdf_path dpi w) = inl (External e)
  /\ recognitions
       (new_calls w (snd (extract_text_from_pdf self pdf_path dpi w)))
     = (fun page => (tesseract_cmd w, page, lang o)) <$> (before ++ [bad]).
Proof.
  intros Ho Hpages Hall Hbad.
  unfold extract_text_from_pdf, bind, convert_from_path.
  rewrite Hpages. cbn [external].
  rewrite (ocr_pages_fail self o (tesseract_cmd w) before texts bad after e
             Hall Hbad); [|reflexivity|exact Ho].
  split; [reflexivity|]. cbn [snd].
  rewrite record_call_add, add_calls_add, new_calls_add.
  cbn [app recognitions omap]. generalize (before ++ [bad]).
  intros l. induction l as [|page l IH]; [reflexivity|].
  cbn. f_equal. exact IH.
Qed.

(** C5.  For an image the image library opens and the engine reads,
    [extract_text_from_image] returns the one-element list made of page
    number 1 and the answer of the engine with the whitespace at both
    ends removed. *)
Theorem extract_text_from_image_single (self : nat) (o : OCRService)
    (image_path : pystr) (image : Image) (text : pystr) (w : World Image) :
  objects w !! self = Some o ->
  decode_image (files w !! image_path) = inr image ->
  recognize (tesseract_cmd w) image (lang o) = inr text ->
  fst (extract_text_from_image self image_path w) = inr [(1%Z, strip text)]
  /\ trimmed_of (strip text) text.
Proof.
  intros Ho Himage Htext. split; [|apply strip_trimmed].
  unfold extract_text_from_image, bind, Image_open.
  rewrite Himage. cbn [external]. unfold get_lang.
  cbn [objects record_call]. rewrite Ho. unfold image_to_string.
  cbn [tesseract_cmd record_call]. rewrite Htext. reflexivity.
Qed.

End PathBased.

(** ** Extraction from bytes *)

Section FromBytes.
Context {Image Exn : Type} `{TC : Toolchain Image Exn}.

Lemma unlinks_recognize (cmd l : pystr) (seen : list Image) :
  unlinks ((fun page => EvRecognize cmd page l) <$> seen) = [].
Proof. induction seen as [|page seen IH]; [reflexivity | exact IH]. Qed.

Lemma unlinks_first_call (file_type p : pystr) :
  unlinks [first_call (Image := Image) file_type p] = [].
Proof.
  unfold first_call. destruct (decide (file_type = lit "pdf")); reflexivity.
Qed.

(** C2, amended.  Once [extract_from_bytes] has staged the bytes (the
    temporary file is created and written), the deletion of the temporary
    file is attempted exactly once, as the last thing the call does,
    whether the dispatched method returns or raises.  If the deletion
    succeeds the temporary file is gone when the call completes; if the
    operating system refuses it, the file is still there. *)
Theorem extract_from_bytes_cleanup (self : nat) (o : OCRService)
    (file_bytes : bytes) (file_type stem : pystr) (w : World Image) :
  objects w !! self = Some o ->
  tmp_stem (files w) (lit "." ++ file_type) = inr stem ->
  write_error (<[tmp_name stem file_type := []]> (files w))
              (tmp_name stem file_type) file_bytes = None ->
  let p := tmp_name stem file_type in
  let w' := snd (extract_from_bytes self file_bytes file_type w) in
  unlinks (new_calls w w') = [p]
  /\ last (new_calls w w') = Some (EvUnlink p)
  /\ match unlink_error (<[p := file_bytes]> (files w)) p with
     | None => files w' !! p = None
     | Some _ => files w' !! p = Some file_bytes
     end.
Proof.
  intros Ho Hstem Hwrite p w'. subst w'.
  destruct (extract_from_bytes_staged self o file_bytes file_type stem w
              Ho Hstem Hwrite) as [seen ->].
  cbv zeta. fold p.
  set (evs := [EvTmpCreate (lit "." ++ file_type); EvWrite p file_bytes;
               first_call file_type p]
              ++ ((fun page => EvRecognize (tesseract_cmd w) page (lang o))
                    <$> seen) ++ [EvUnlink p]).
  assert (Hnew : forall fs, new_calls w (set_files fs (add_calls evs w)) = evs).
  { intros fs. apply new_calls_app. reflexivity. }
  assert (Hun : unlinks evs = [p]).
  { unfold evs, unlinks. rewrite !omap_app.
    fold (unlinks ((fun page => EvRecognize (tesseract_cmd w) page (lang o))
                     <$> seen)).
    rewrite unlinks_recognize. cbn [omap list_omap app].
    pose proof (unlinks_first_call file_type p) as Hfirst.
    unfold unlinks in Hfirst. cbn [omap list_omap] in Hfirst.
    destruct (first_call file_type p); try discriminate; reflexivity. }
  assert (Hlast : last evs = Some (EvUnlink p)).
  { unfold evs. rewrite !app_assoc. apply last_snoc. }
  destruct (unlink_error (<[p := file_bytes]> (files w)) p) as [e|];
    cbn [snd]; rewrite Hnew; repeat split; try assumption; cbn [files set_files].
  - apply lookup_insert_eq.
  - apply lookup_delete_eq.
Qed.

(** C3, amended.  When the staging and the deletion of the temporary
    file succeed,
    [extract_from_bytes] returns (or raises) exactly what the path-based
    method returns (or raises) on any file that holds the same bytes, in
    a process with the same instance and the same engine:
    [extract_text_from_pdf] with its default dpi when [file_type] is
    ["pdf"], [extract_text_from_image] for every other [file_type]. *)
Theorem extract_from_bytes_as_path_based (self : nat) (o : OCRService)
    (file_bytes : bytes) (file_type stem : pystr) (w : World Image)
    (path : pystr) (w' : World Image) :
  objects w !! self = Some o ->
  tmp_stem (files w) (lit "." ++ file_type) = inr stem ->
  write_error (<[tmp_name stem file_type := []]> (files w))
              (tmp_name stem file_type) file_bytes = None ->
  unlink_error (<[tmp_name stem file_type := file_bytes]> (files w))
               (tmp_name stem file_type) = None ->
  files w' !! path = Some file_bytes ->
  tesseract_cmd w' = tesseract_cmd w ->
  objects w' !! self = Some o ->
  fst (extract_from_bytes self file_bytes file_type w)
  = fst ((if decide (file_type = lit "pdf")
          then extract_text_from_pdf self path None
          else extract_text_from_image self path) w').
Proof.
  intros Ho Hstem Hwrite Hunlink Hfile Hcmd Ho'.
  rewrite (extract_from_bytes_outcome self o _ _ _ Ho).
  rewrite Hstem. cbv zeta. rewrite Hwrite, Hunlink.
  change (if decide (file_type = lit "pdf")
          then extract_text_from_pdf self path None
          else extract_text_from_image self path)
    with (dispatch self file_type path).
  apply dispatch_result_ext.
  - cbn [files staged set_files]. rewrite lookup_insert_eq, Hfile.
    reflexivity.
  - rewrite Hcmd. reflexivity.
  - cbn [objects staged set_files add_calls]. rewrite Ho, Ho'. reflexivity.
Qed.

(** C6, amended.  [extract_from_bytes] surfaces the error of the staging
    unchanged, before anything is dispatched: the error of the creation
    of the temporary file, or the error of the write.  A failure of the
    dispatched path-based method is propagated unchanged when the
    deletion of the temporary file succeeds; when the deletion fails too,
    the error of the deletion is raised in its place. *)
Theorem extract_from_bytes_failures (self : nat) (o : OCRService)
    (file_bytes : bytes) (file_type : pystr) (w : World Image) :
  objects w !! self = Some o ->
  let run := extract_from_bytes self file_bytes file_type w in
  (forall e,
     tmp_stem (files w) (lit "." ++ file_type) = inl e ->
     fst run = inl (External e)
     /\ new_calls w (snd run) = [EvTmpCreate (lit "." ++ file_type)])
  /\ (forall stem e,
        tmp_stem (files w) (lit "." ++ file_type) = inr stem ->
        write_error (<[tmp_name stem file_type := []]> (files w))
                    (tmp_name stem file_type) file_bytes = Some e ->
        fst run = inl (External e)
        /\ new_calls w (snd run)
           = [EvTmpCreate (lit "." ++ file_type);
              EvWrite (tmp_name stem file_type) file_bytes])
  /\ (forall stem e,
        tmp_stem (files w) (lit "." ++ file_type) = inr stem ->
        write_error (<[tmp_name stem file_type := []]> (files w))
                    (tmp_name stem file_type) file_bytes = None ->
        fst (dispatch self file_type (tmp_name stem file_type)
               (staged stem file_type file_bytes w)) = inl e ->
        fst run
        = match unlink_error
                  (<[tmp_name stem file_type := file_bytes]> (files w))
                  (tmp_name stem file_type) with
          | None => inl e
          | Some e' => inl (External e')
          end).
Proof.
  intros Ho run. subst run. split; [|split].
  - intros e Hstem.
    rewrite (extract_from_bytes_create_fails _ _ _ _ _ Hstem).
    split; [reflexivity | apply new_calls_add].
  - intros stem e Hstem Hwrite.
    rewrite (extract_from_bytes_write_fails _ _ _ _ _ _ Hstem Hwrite).
    split; [reflexivity | apply new_calls_app; reflexivity].
  - intros stem e Hstem Hwrite Hdispatch.
    rewrite (extract_from_bytes_outcome self o _ _ _ Ho).
    rewrite Hstem. cbv zeta. rewrite Hwrite, Hdispatch. reflexivity.
Qed.

(** C7, amended.  When the dispatched extraction inside
    [extract_from_bytes] succeeds, the call returns its result if the
    deletion of the temporary file succeeds; if the deletion fails, the
    error of the deletion is raised in place of the result. *)
Theorem extract_from_bytes_success (self : nat) (o : OCRService)
    (file_bytes : bytes) (file_type stem : pystr)
    (result : list (Z * pystr)) (w : World Image) :
  objects w !! self = Some o ->
  tmp_stem (files w) (lit "." ++ file_type) = inr stem ->
  write_error (<[tmp_name stem file_type := []]> (files w))
              (tmp_name stem file_type) file_bytes = None ->
  fst (dispatch self file_type (tmp_name stem file_type)
         (staged stem file_type file_bytes w)) = inr result ->
  fst (extract_from_bytes self file_bytes file_type w)
  = match unlink_error (<[tmp_name stem file_type := file_bytes]> (files w))
                       (tmp_name stem file_type) with
    | None => inr result
    | Some e => inl (External e)
    end.
Proof.
  intros Ho Hstem Hwrite Hdispatch.
  rewrite (extract_from_bytes_outcome self o _ _ _ Ho).
  rewrite Hstem. cbv zeta. rewrite Hwrite, Hdispatch. reflexivity.
Qed.

End FromBytes.

(** ** Configuration *)

Section Configuration.
Context {Image Exn : Type} `{TC : Toolchain Image Exn}.

Lemma recognitions_ok (cmd l : pystr) (dpi : Z) (evs : list (Event Image)) :
  Forall (event_ok cmd l dpi) evs ->
  Forall (fun r => r.1.1 = cmd /\ r.2 = l) (recognitions evs).
Proof.
  induction 1 as [|ev evs Hev _ IH]; [constructor|].
  destruct ev; cbn; try exact IH. constructor; [exact Hev | exact IH].
Qed.

Lemma rasterizations_ok (cmd l : pystr) (dpi : Z) (evs : list (Event Image)) :
  Forall (event_ok cmd l dpi) evs ->
  Forall (fun r => r.2 = dpi) (rasterizations evs).
Proof.
  induction 1 as [|ev evs Hev _ IH]; [constructor|].
  destruct ev; cbn; try exact IH. constructor; [exact Hev | exact IH].
Qed.

Lemma rasterizations_recognize (cmd l : pystr) (seen : list Image) :
  rasterizations ((fun page => EvRecognize cmd page l) <$> seen) = [].
Proof. induction seen as [|page seen IH]; [reflexivity | exact IH]. Qed.

(** C8.  The constructor stores the language it is given (["tam"] when
    none is given) in the new instance.  Every extraction operation of an
    instance (a PDF, an image, bytes of either kind) passes the language
    of the instance to every call of the OCR engine it makes, on every
    page, whether the operation returns or raises; the operations take no
    language argument; and after the operation the instances, hence the
    language of each, are as they were before. *)
Theorem language_fixed_at_construction (lang_arg : option pystr)
    (w0 : World Image) (self : nat) (o : OCRService) (op : Op)
    (w : World Image) :
  objects w !! self = Some o ->
  (fst (OCRService_init (Exn := Exn) lang_arg w0) = inr (length (objects w0))
   /\ objects (snd (OCRService_init (Exn := Exn) lang_arg w0))
        !! length (objects w0)
      = Some (mkOCRService (default (lit "tam") lang_arg)))
  /\ Forall (fun r => r.2 = lang o)
            (recognitions (new_calls w (snd (run_op self op w))))
  /\ objects (snd (run_op self op w)) = objects w.
Proof.
  intros Ho. split; [split|].
  - reflexivity.
  - cbn [snd OCRService_init objects]. apply list_lookup_middle. reflexivity.
  - destruct (run_op_events self o op w Ho) as (evs & Hcalls & Hobj & _ & Hok).
    split; [|exact Hobj].
    rewrite (new_calls_app _ _ _ Hcalls).
    eapply Forall_impl; [exact (recognitions_ok _ _ _ _ Hok)|].
    intros r [_ Hl]. exact Hl.
Qed.

(** C9.  The resolution is an argument of the call with default 300: a
    call of [extract_text_from_pdf] rasterises once, at the dpi it was
    given, or at 300 when it was given none.  A call of
    [extract_from_bytes] never rasterises at another resolution than 300,
    and with [file_type] ["pdf"], once the bytes are staged, it rasterises
    the temporary file once, at 300. *)
Theorem dpi_per_call_default_300 (self : nat) (o : OCRService)
    (w : World Image) :
  objects w !! self = Some o ->
  (forall pdf_path dpi,
     rasterizations
       (new_calls w (snd (extract_text_from_pdf self pdf_path dpi w)))
     = [(pdf_path, default 300%Z dpi)])
  /\ (forall file_bytes file_type,
        Forall (fun r => r.2 = 300%Z)
          (rasterizations
             (new_calls w
                (snd (extract_from_bytes self file_bytes file_type w)))))
  /\ (forall file_bytes stem,
        tmp_stem (files w) (lit "." ++ lit "pdf") = inr stem ->
        write_error (<[tmp_name stem (lit "pdf") := []]> (files w))
                    (tmp_name stem (lit "pdf")) file_bytes = None ->
        rasterizations
          (new_calls w
             (snd (extract_from_bytes self file_bytes (lit "pdf") w)))
        = [(tmp_name stem (lit "pdf"), 300%Z)]).
Proof.
  intros Ho. split; [|split].
  - intros pdf_path dpi.
    destruct (extract_text_from_pdf_effect self o pdf_path dpi w Ho)
      as [seen ->].
    rewrite new_calls_add. cbn [rasterizations omap list_omap].
    fold (rasterizations
            ((fun page => EvRecognize (tesseract_cmd w) page (lang o))
               <$> seen)).
    rewrite rasterizations_recognize. reflexivity.
  - intros file_bytes file_type.
    destruct (run_op_events self o (OpBytes file_bytes file_type) w Ho)
      as (evs & Hcalls & _ & _ & Hok).
    cbn [run_op] in Hcalls. rewrite (new_calls_app _ _ _ Hcalls).
    exact (rasterizations_ok _ _ _ _ Hok).
  - intros file_bytes stem Hstem Hwrite.
    destruct (extract_from_bytes_staged self o file_bytes (lit "pdf") stem w
                Ho Hstem Hwrite) as [seen ->].
    cbv zeta.
    assert (Hnew : forall fs evs,
               new_calls w (set_files fs (add_calls evs w)) = evs).
    { intros fs evs. apply new_calls_app. reflexivity. }
    destruct (unlink_error _ _); cbn [snd]; rewrite Hnew;
      unfold rasterizations; rewrite !omap_app;
      fold (rasterizations
              ((fun page => EvRecognize (tesseract_cmd w) page (lang o))
                 <$> seen));
      rewrite rasterizations_recognize; reflexivity.
Qed.

(** C10.  Whatever language it is given and whatever the executable path
    was before, a construction of [OCRService] assigns
    ["/usr/bin/tesseract"] to the module attribute [tesseract_cmd], and
    leaves the files, the recorded calls and the instances that existed
    as they were.  The attribute belongs to the process, not to an
    instance: an instance holds a language and nothing else, every
    operation of every instance calls the engine through the path the
    attribute holds when the operation starts, and no operation assigns
    it. *)
Theorem tesseract_cmd_is_process_global (lang_arg : option pystr)
    (w0 : World Image) (self : nat) (o : OCRService) (op : Op)
    (w : World Image) :
  objects w !! self = Some o ->
  let w1 := snd (OCRService_init (Exn := Exn) lang_arg w0) in
  tesseract_cmd w1 = lit "/usr/bin/tesseract"
  /\ files w1 = files w0
  /\ calls w1 = calls w0
  /\ (forall i older, objects w0 !! i = Some older ->
        objects w1 !! i = Some older)
  /\ Forall (fun r => r.1.1 = tesseract_cmd w)
            (recognitions (new_calls w (snd (run_op self op w))))
  /\ tesseract_cmd (snd (run_op self op w)) = tesseract_cmd w.
Proof.
  intros Ho w1. subst w1. cbn [snd OCRService_init tesseract_cmd files calls
                               objects].
  repeat split.
  - intros i older Hi. apply lookup_app_l_Some. exact Hi.
  - destruct (run_op_events self o op w Ho) as (evs & Hcalls & _ & _ & Hok).
    rewrite (new_calls_app _ _ _ Hcalls).
    eapply Forall_impl; [exact (recognitions_ok _ _ _ _ Hok)|].
    intros r [Hc _]. exact Hc.
  - destruct (run_op_events self o op w Ho) as (evs & _ & _ & Hcmd & _).
    exact Hcmd.
Qed.

End Configuration.

(** ** The service at work *)

(** The scenario of the three Tamil pages, the last one blank. *)
Example tamil_scenario :
  fst (extract_text_from_pdf (TC := Sim.toolchain (Sim.fine Sim.tamil_doc))
         0 Sim.scan None (Sim.with_file Sim.some_bytes))
  = inr [(1%Z, Sim.vanakkam); (2%Z, Sim.ulagam); (3%Z, [])].
Proof. vm_compute. reflexivity. Qed.

Lemma extract_text_from_pdf_all_pages_witness :
  exists result : list (Z * pystr),
    fst (extract_text_from_pdf (TC := Sim.toolchain (Sim.fine Sim.tamil_doc))
           0 Sim.scan None (Sim.with_file Sim.some_bytes)) = inr result
    /\ length result = length Sim.tamil_doc
    /\ result.*1 = seqZ 1 (Z.of_nat (length Sim.tamil_doc))
    /\ result.*2 = strip <$> Sim.tamil_doc
    /\ Forall2 (fun entry text => trimmed_of entry.2 text)
               result Sim.tamil_doc.
Proof.
  apply (extract_text_from_pdf_all_pages
           (TC := Sim.toolchain (Sim.fine Sim.tamil_doc))
           0 Sim.tam Sim.scan None Sim.tamil_doc Sim.tamil_doc
           (Sim.with_file Sim.some_bytes)).
  - reflexivity.
  - vm_compute. reflexivity.
  - repeat (constructor; [vm_compute; reflexivity|]). constructor.
Defined.

Lemma extract_text_from_pdf_aborts_witness :
  fst (extract_text_from_pdf (TC := Sim.toolchain (Sim.fine Sim.damaged_doc))
         0 Sim.scan None (Sim.with_file Sim.some_bytes))
  = inl (External "TesseractError")
  /\ recognitions
       (new_calls (Sim.with_file Sim.some_bytes)
          (snd (extract_text_from_pdf
                  (TC := Sim.toolchain (Sim.fine Sim.damaged_doc))
                  0 Sim.scan None (Sim.with_file Sim.some_bytes))))
     = [(lit "/usr/bin/tesseract", Sim.vanakkam ++ [10%N], lit "tam");
        (lit "/usr/bin/tesseract", [0%N], lit "tam")].
Proof.
  apply (extract_text_from_pdf_aborts
           (TC := Sim.toolchain (Sim.fine Sim.damaged_doc))
           0 Sim.tam Sim.scan None [Sim.vanakkam ++ [10%N]]
           [Sim.vanakkam ++ [10%N]] [0%N] [Sim.ulagam] "TesseractError"
           (Sim.with_file Sim.some_bytes)).
  - reflexivity.
  - vm_compute. reflexivity.
  - repeat (constructor; [vm_compute; reflexivity|]). constructor.
  - vm_compute. reflexivity.
Defined.

Lemma extract_text_from_image_single_witness :
  fst (extract_text_from_image (TC := Sim.toolchain (Sim.fine [[10; 12]%N]))
         0 Sim.scan (Sim.with_file Sim.some_bytes))
  = inr [(1%Z, strip [10; 12]%N)]
  /\ trimmed_of (strip [10; 12]%N) [10; 12]%N.
Proof.
  apply (extract_text_from_image_single
           (TC := Sim.toolchain (Sim.fine [[10; 12]%N]))
           0 Sim.tam Sim.scan [10; 12]%N [10; 12]%N
           (Sim.with_file Sim.some_bytes)).
  - reflexivity.
  - vm_compute. reflexivity.
  - vm_compute. reflexivity.
Defined.

(** The scenario of the blank image. *)
Example blank_image_scenario :
  fst (extract_text_from_image (TC := Sim.toolchain (Sim.fine [[10; 12]%N]))
         0 Sim.scan (Sim.with_file Sim.some_bytes))
  = inr [(1%Z, [])].
Proof. vm_compute. reflexivity. Qed.

(** Against C2 as stated.  The operating system refuses the deletion:
    the call of [extract_from_bytes] ends with the temporary file still
    on disk.  And when it refuses the write, the file it created is left
    behind too, without any attempt to delete it. *)
Lemma temp_file_left_behind :
  (files Sim.started !! Sim.tmp_pdf = None
   /\ files (snd (Sim.pdf_of_bytes (Sim.locked Sim.tamil_doc) Sim.some_bytes))
        !! Sim.tmp_pdf = Some Sim.some_bytes
   /\ files (snd (Sim.pdf_of_bytes (Sim.locked Sim.tamil_doc) Sim.some_bytes))
        !! Sim.tmp_pdf <> None)
  /\ (files (snd (Sim.pdf_of_bytes (Sim.disk_full Sim.tamil_doc)
                    Sim.some_bytes))
        !! Sim.tmp_pdf = Some []
      /\ unlinks (new_calls Sim.started
                    (snd (Sim.pdf_of_bytes (Sim.disk_full Sim.tamil_doc)
                            Sim.some_bytes))) = []).
Proof.
  repeat split; try (vm_compute; reflexivity).
  vm_compute. discriminate.
Qed.

Lemma extract_from_bytes_cleanup_witness :
  let w' := snd (Sim.pdf_of_bytes (Sim.fine Sim.tamil_doc) Sim.some_bytes) in
  unlinks (new_calls Sim.started w') = [Sim.tmp_pdf]
  /\ last (new_calls Sim.started w') = Some (EvUnlink Sim.tmp_pdf)
  /\ files w' !! Sim.tmp_pdf = None.
Proof.
  apply (extract_from_bytes_cleanup
           (TC := Sim.toolchain (Sim.fine Sim.tamil_doc))
           0 Sim.tam Sim.some_bytes (lit "pdf") Sim.stem Sim.started).
  - reflexivity.
  - reflexivity.
  - reflexivity.
Defined.

(** Against C3 as stated.  The same bytes, once in a file given to
    [extract_text_from_pdf] and once given to [extract_from_bytes] with
    ["pdf"]: on a system that refuses the deletion the first returns the
    three pages and the second raises the error of the deletion; on a
    system that refuses the write the first returns the three pages and
    the second raises the error of the write. *)
Lemma bytes_and_path_outcomes_differ :
  files (Sim.with_file Sim.some_bytes) !! Sim.scan = Some Sim.some_bytes
  /\ (fst (extract_text_from_pdf
             (TC := Sim.toolchain (Sim.locked Sim.tamil_doc))
             0 Sim.scan None (Sim.with_file Sim.some_bytes))
      = inr [(1%Z, Sim.vanakkam); (2%Z, Sim.ulagam); (3%Z, [])]
      /\ fst (extract_from_bytes
                (TC := Sim.toolchain (Sim.locked Sim.tamil_doc))
                0 Sim.some_bytes (lit "pdf") Sim.started)
         = inl (External "PermissionError: [Errno 13] Permission denied")
      /\ fst (extract_from_bytes
                (TC := Sim.toolchain (Sim.locked Sim.tamil_doc))
                0 Sim.some_bytes (lit "pdf") Sim.started)
         <> fst (extract_text_from_pdf
                   (TC := Sim.toolchain (Sim.locked Sim.tamil_doc))
                   0 Sim.scan None (Sim.with_file Sim.some_bytes)))
  /\ (fst (extract_text_from_pdf
             (TC := Sim.toolchain (Sim.disk_full Sim.tamil_doc))
             0 Sim.scan None (Sim.with_file Sim.some_bytes))
      = inr [(1%Z, Sim.vanakkam); (2%Z, Sim.ulagam); (3%Z, [])]
      /\ fst (extract_from_bytes
                (TC := Sim.toolchain (Sim.disk_full Sim.tamil_doc))
                0 Sim.some_bytes (lit "pdf") Sim.started)
         = inl (External "OSError: [Errno 28] No space left on device")).
Proof.
  repeat split; try (vm_compute; reflexivity).
  vm_compute. discriminate.
Qed.

Lemma extract_from_bytes_as_path_based_witness :
  fst (Sim.pdf_of_bytes (Sim.fine Sim.tamil_doc) Sim.some_bytes)
  = fst (extract_text_from_pdf (TC := Sim.toolchain (Sim.fine Sim.tamil_doc))
           0 Sim.scan None (Sim.with_file Sim.some_bytes)).
Proof.
  apply (extract_from_bytes_as_path_based
           (TC := Sim.toolchain (Sim.fine Sim.tamil_doc))
           0 Sim.tam Sim.some_bytes (lit "pdf") Sim.stem Sim.started
           Sim.scan (Sim.with_file Sim.some_bytes)).
  - reflexivity.
  - reflexivity.
  - reflexivity.
  - reflexivity.
  - vm_compute. reflexivity.
  - reflexivity.
  - reflexivity.
Defined.

(** Other file types go to the image method. *)
Example extract_from_bytes_png :
  fst (extract_from_bytes (TC := Sim.toolchain (Sim.fine Sim.tamil_doc))
         0 Sim.some_bytes (lit "png") Sim.started)
  = inr [(1%Z, Sim.vanakkam)]
  /\ new_calls Sim.started
       (snd (extract_from_bytes (TC := Sim.toolchain (Sim.fine Sim.tamil_doc))
               0 Sim.some_bytes (lit "png") Sim.started))
     = [EvTmpCreate (lit ".png");
        EvWrite (lit "/tmp/tmpq3k9x1ab.png") Sim.some_bytes;
        EvOpen (lit "/tmp/tmpq3k9x1ab.png");
        EvRecognize (lit "/usr/bin/tesseract")
                    (Sim.vanakkam ++ [10; 12]%N) (lit "tam");
        EvUnlink (lit "/tmp/tmpq3k9x1ab.png")].
Proof. split; vm_compute; reflexivity. Qed.

(** Against C6 as stated.  A corrupt PDF on a system that refuses the
    deletion: the dispatched method fails with the error of the
    rasteriser, the call with the error of the deletion. *)
Lemma deletion_error_masks_dispatch_error :
  fst (dispatch (TC := Sim.toolchain (Sim.locked Sim.tamil_doc))
         0 (lit "pdf") Sim.tmp_pdf
         (staged Sim.stem (lit "pdf") [] Sim.started))
  = inl (External "PDFSyntaxError: may not be a PDF file")
  /\ fst (Sim.pdf_of_bytes (Sim.locked Sim.tamil_doc) [])
     = inl (External "PermissionError: [Errno 13] Permission denied")
  /\ fst (Sim.pdf_of_bytes (Sim.locked Sim.tamil_doc) [])
     <> fst (dispatch (TC := Sim.toolchain (Sim.locked Sim.tamil_doc))
               0 (lit "pdf") Sim.tmp_pdf
               (staged Sim.stem (lit "pdf") [] Sim.started)).
Proof.
  repeat split; try (vm_compute; reflexivity).
  vm_compute. discriminate.
Qed.

Lemma extract_from_bytes_failures_witness :
  fst (Sim.pdf_of_bytes (Sim.no_tmp_dir Sim.tamil_doc) Sim.some_bytes)
  = inl (External "FileNotFoundError: no usable temporary directory")
  /\ fst (Sim.pdf_of_bytes (Sim.disk_full Sim.tamil_doc) Sim.some_bytes)
     = inl (External "OSError: [Errno 28] No space left on device")
  /\ fst (Sim.pdf_of_bytes (Sim.fine Sim.tamil_doc) [])
     = inl (External "PDFSyntaxError: may not be a PDF file").
Proof.
  split; [|split].
  - apply (proj1 (extract_from_bytes_failures
                    (TC := Sim.toolchain (Sim.no_tmp_dir Sim.tamil_doc))
                    0 Sim.tam Sim.some_bytes (lit "pdf") Sim.started
                    eq_refl)).
    reflexivity.
  - apply (proj1 (proj2 (extract_from_bytes_failures
                    (TC := Sim.toolchain (Sim.disk_full Sim.tamil_doc))
                    0 Sim.tam Sim.some_bytes (lit "pdf") Sim.started
                    eq_refl)) Sim.stem).
    + reflexivity.
    + reflexivity.
  - apply (proj2 (proj2 (extract_from_bytes_failures
                    (TC := Sim.toolchain (Sim.fine Sim.tamil_doc))
                    0 Sim.tam [] (lit "pdf") Sim.started
                    eq_refl)) Sim.stem).
    + reflexivity.
    + reflexivity.
    + vm_compute. reflexivity.
Defined.

(** Against C7 as stated.  A readable PDF on a system that refuses the
    deletion: the dispatched method returns the three pages, the call
    raises the error of the deletion. *)
Lemma deletion_error_replaces_result :
  fst (dispatch (TC := Sim.toolchain (Sim.locked Sim.tamil_doc))
         0 (lit "pdf") Sim.tmp_pdf
         (staged Sim.stem (lit "pdf") Sim.some_bytes Sim.started))
  = inr [(1%Z, Sim.vanakkam); (2%Z, Sim.ulagam); (3%Z, [])]
  /\ fst (Sim.pdf_of_bytes (Sim.locked Sim.tamil_doc) Sim.some_bytes)
     = inl (External "PermissionError: [Errno 13] Permission denied")
  /\ fst (Sim.pdf_of_bytes (Sim.locked Sim.tamil_doc) Sim.some_bytes)
     <> inr [(1%Z, Sim.vanakkam); (2%Z, Sim.ulagam); (3%Z, [])].
Proof.
  repeat split; try (vm_compute; reflexivity).
  vm_compute. discriminate.
Qed.

Lemma extract_from_bytes_success_witness :
  fst (Sim.pdf_of_bytes (Sim.fine Sim.tamil_doc) Sim.some_bytes)
  = inr [(1%Z, Sim.vanakkam); (2%Z, Sim.ulagam); (3%Z, [])].
Proof.
  apply (extract_from_bytes_success
           (TC := Sim.toolchain (Sim.fine Sim.tamil_doc))
           0 Sim.tam Sim.some_bytes (lit "pdf") Sim.stem
           [(1%Z, Sim.vanakkam); (2%Z, Sim.ulagam); (3%Z, [])] Sim.started).
  - reflexivity.
  - reflexivity.
  - reflexivity.
  - vm_compute. reflexivity.
Defined.

Lemma language_fixed_at_construction_witness :
  (fst (OCRService_init (Exn := string) (Some (lit "eng")) Sim.started)
   = inr 1
   /\ objects (snd (OCRService_init (Exn := string) (Some (lit "eng"))
                      Sim.started)) !! 1
      = Some (mkOCRService (lit "eng")))
  /\ Forall (fun r => r.2 = lit "tam")
       (recognitions
          (new_calls Sim.started
             (snd (Sim.pdf_of_bytes (Sim.fine Sim.tamil_doc) Sim.some_bytes))))
  /\ objects (snd (Sim.pdf_of_bytes (Sim.fine Sim.tamil_doc) Sim.some_bytes))
     = objects Sim.started.
Proof.
  apply (language_fixed_at_construction
           (TC := Sim.toolchain (Sim.fine Sim.tamil_doc))
           (Some (lit "eng")) Sim.started 0 Sim.tam
           (OpBytes Sim.some_bytes (lit "pdf")) Sim.started).
  reflexivity.
Defined.

Lemma dpi_per_call_default_300_witness :
  rasterizations
    (new_calls (Sim.with_file Sim.some_bytes)
       (snd (extract_text_from_pdf
               (TC := Sim.toolchain (Sim.fine Sim.tamil_doc))
               0 Sim.scan None (Sim.with_file Sim.some_bytes))))
  = [(Sim.scan, 300%Z)]
  /\ rasterizations
       (new_calls (Sim.with_file Sim.some_bytes)
          (snd (extract_text_from_pdf
                  (TC := Sim.toolchain (Sim.fine Sim.tamil_doc))
                  0 Sim.scan (Some 150%Z) (Sim.with_file Sim.some_bytes))))
     = [(Sim.scan, 150%Z)].
Proof.
  split.
  - apply (proj1 (dpi_per_call_default_300
                    (TC := Sim.toolchain (Sim.fine Sim.tamil_doc))
                    0 Sim.tam (Sim.with_file Sim.some_bytes) eq_refl)
             Sim.scan None).
  - apply (proj1 (dpi_per_call_default_300
                    (TC := Sim.toolchain (Sim.fine Sim.tamil_doc))
                    0 Sim.tam (Sim.with_file Sim.some_bytes) eq_refl)
             Sim.scan (Some 150%Z)).
Defined.

Lemma tesseract_cmd_is_process_global_witness :
  let w1 := snd (OCRService_init (Exn := string) (Some (lit "eng")) Sim.boot) in
  tesseract_cmd w1 = lit "/usr/bin/tesseract"
  /\ files w1 = files Sim.boot
  /\ calls w1 = calls Sim.boot
  /\ (forall i older, objects Sim.boot !! i = Some older ->
        objects w1 !! i = Some older)
  /\ Forall (fun r => r.1.1 = tesseract_cmd Sim.started)
       (recognitions
          (new_calls Sim.started
             (snd (run_op (TC := Sim.toolchain (Sim.fine Sim.tamil_doc))
                     0 (OpBytes Sim.some_bytes (lit "pdf")) Sim.started))))
  /\ tesseract_cmd
       (snd (run_op (TC := Sim.toolchain (Sim.fine Sim.tamil_doc))
               0 (OpBytes Sim.some_bytes (lit "pdf")) Sim.started))
     = tesseract_cmd Sim.started.
Proof.
  apply (tesseract_cmd_is_process_global
           (TC := Sim.toolchain (Sim.fine Sim.tamil_doc))
           (Some (lit "eng")) Sim.boot 0 Sim.tam
           (OpBytes Sim.some_bytes (lit "pdf")) Sim.started).
  reflexivity.
Defined.

(** * Further properties of the methods *)

(** ** Failures and edge cases of the path-based methods *)

Section PathBasedEdges.
Context {Image Exn : Type} `{TC : Toolchain Image Exn}.

Lemma recognitions_recognize (cmd l : pystr) (seen : list Image) :
  recognitions ((fun page => EvRecognize cmd page l) <$> seen)
  = (fun page => (cmd, page, l)) <$> seen.
Proof.
  induction seen as [|page seen IH]; [reflexivity|].
  cbn. f_equal. exact IH.
Qed.

(** X1.  When the rasteriser rejects the file (missing, unreadable, not a
    PDF), [extract_text_from_pdf] raises the error of the rasteriser as it
    is, the OCR engine is never called, and nothing but the one
    rasterisation was attempted. *)
Theorem extract_text_from_pdf_invalid_document (self : nat)
    (pdf_path : pystr) (dpi : option Z) (e : Exn) (w : World Image) :
  rasterize (files w !! pdf_path) (default 300%Z dpi) = inl e ->
  fst (extract_text_from_pdf self pdf_path dpi w) = inl (External e)
  /\ new_calls w (snd (extract_text_from_pdf self pdf_path dpi w))
     = [EvRasterize pdf_path (default 300%Z dpi)]
  /\ files (snd (extract_text_from_pdf self pdf_path dpi w)) = files w.
Proof.
  intros Hfail. unfold extract_text_from_pdf, bind, convert_from_path.
  rewrite Hfail. cbn [external fst snd].
  rewrite record_call_add, new_calls_add. repeat split.
Qed.

(** X2.  A PDF without pages gives the empty list, and the OCR engine is
    not called at all. *)
Theorem extract_text_from_pdf_no_pages (self : nat) (pdf_path : pystr)
    (dpi : option Z) (w : World Image) :
  rasterize (files w !! pdf_path) (default 300%Z dpi) = inr [] ->
  fst (extract_text_from_pdf self pdf_path dpi w) = inr []
  /\ recognitions
       (new_calls w (snd (extract_text_from_pdf self pdf_path dpi w))) = [].
Proof.
  intros Hnone. unfold extract_text_from_pdf, bind, convert_from_path.
  rewrite Hnone. cbn [external ocr_pages]. unfold ret. cbn [fst snd].
  rewrite record_call_add, new_calls_add. split; reflexivity.
Qed.

(** X3.  On a PDF whose pages the engine reads, [extract_text_from_pdf]
    rasterises the file once and calls the engine exactly once per page,
    in page order, and does nothing else. *)
Theorem extract_text_from_pdf_one_call_per_page (self : nat)
    (o : OCRService) (pdf_path : pystr) (dpi : option Z)
    (pages : list Image) (texts : list pystr) (w : World Image) :
  objects w !! self = Some o ->
  rasterize (files w !! pdf_path) (default 300%Z dpi) = inr pages ->
  Forall2 (fun page text =>
             recognize (tesseract_cmd w) page (lang o) = inr text)
          pages texts ->
  new_calls w (snd (extract_text_from_pdf self pdf_path dpi w))
  = EvRasterize pdf_path (default 300%Z dpi)
    :: ((fun page => EvRecognize (tesseract_cmd w) page (lang o)) <$> pages).
Proof.
  intros Ho Hpages Hall.
  unfold extract_text_from_pdf, bind, convert_from_path.
  rewrite Hpages. cbn [external].
  rewrite (ocr_pages_ok self o (tesseract_cmd w) pages texts Hall);
    [|reflexivity|exact Ho].
  cbn [snd]. rewrite record_call_add, add_calls_add, new_calls_add.
  reflexivity.
Qed.

(** X4.  When the image library cannot open the file,
    [extract_text_from_image] raises its error as it is and the OCR engine
    is never called. *)
Theorem extract_text_from_image_invalid_document (self : nat)
    (image_path : pystr) (e : Exn) (w : World Image) :
  decode_image (files w !! image_path) = inl e ->
  fst (extract_text_from_image self image_path w) = inl (External e)
  /\ new_calls w (snd (extract_text_from_image self image_path w))
     = [EvOpen image_path].
Proof.
  intros Hfail. unfold extract_text_from_image, bind, Image_open.
  rewrite Hfail. cbn [external fst snd].
  rewrite record_call_add, new_calls_add. split; reflexivity.
Qed.

(** The run of [extract_text_from_image] on an image that opens. *)
Lemma extract_text_from_image_run (self : nat) (o : OCRService)
    (image_path : pystr) (image : Image) (w : World Image) :
  objects w !! self = Some o ->
  decode_image (files w !! image_path) = inr image ->
  extract_text_from_image self image_path w
  = (match recognize (tesseract_cmd w) image (lang o) with
     | inl e => inl (External e)
     | inr text => inr [(1%Z, strip text)]
     end,
     add_calls [EvOpen image_path;
                EvRecognize (tesseract_cmd w) image (lang o)] w).
Proof.
  intros Ho Himage. unfold extract_text_from_image, bind, Image_open.
  rewrite Himage. cbn [external]. unfold get_lang.
  cbn [objects record_call]. rewrite Ho. unfold image_to_string.
  cbn [tesseract_cmd record_call].
  destruct (recognize (tesseract_cmd w) image (lang o)) as [e|text];
    cbn [external]; unfold ret;
    rewrite !record_call_add, add_calls_add; reflexivity.
Qed.

(** X5.  When the engine fails on an image that opened,
    [extract_text_from_image] raises the error of the engine as it is,
    after one single call of the engine: there is no second attempt. *)
Theorem extract_text_from_image_engine_failure (self : nat) (o : OCRService)
    (image_path : pystr) (image : Image) (e : Exn) (w : World Image) :
  objects w !! self = Some o ->
  decode_image (files w !! image_path) = inr image ->
  recognize (tesseract_cmd w) image (lang o) = inl e ->
  fst (extract_text_from_image self image_path w) = inl (External e)
  /\ new_calls w (snd (extract_text_from_image self image_path w))
     = [EvOpen image_path; EvRecognize (tesseract_cmd w) image (lang o)].
Proof.
  intros Ho Himage Hfail.
  rewrite (extract_text_from_image_run self o image_path image w Ho Himage).
  rewrite Hfail. cbn [fst snd]. rewrite new_calls_add. split; reflexivity.
Qed.

(** Whitespace only is what [strip] reduces to nothing. *)
Lemma lstrip_blank (s : pystr) :
  Forall (fun c => isspace c = true) s -> lstrip s = [].
Proof.
  induction 1 as [|c s Hc _ IH]; [reflexivity|].
  simpl. rewrite Hc. exact IH.
Qed.

Lemma strip_empty_iff (s : pystr) :
  strip s = [] <-> Forall (fun c => isspace c = true) s.
Proof.
  split.
  - intros Hs. destruct (strip_trimmed s) as (l & r & Heq & Hl & Hr & _).
    rewrite Hs in Heq. rewrite Heq. apply Forall_app. split; assumption.
  - intros Hall. unfold strip. rewrite (lstrip_blank s Hall). reflexivity.
Qed.

(** X6.  A blank page: the entry that [extract_text_from_image] returns
    has the empty text exactly when the engine answered nothing but
    whitespace. *)
Theorem extract_text_from_image_blank (self : nat) (o : OCRService)
    (image_path : pystr) (image : Image) (text : pystr) (w : World Image) :
  objects w !! self = Some o ->
  decode_image (files w !! image_path) = inr image ->
  recognize (tesseract_cmd w) image (lang o) = inr text ->
  fst (extract_text_from_image self image_path w) = inr [(1%Z, [])]
  <-> Forall (fun c => isspace c = true) text.
Proof.
  intros Ho Himage Htext.
  rewrite (extract_text_from_image_run self o image_path image w Ho Himage).
  rewrite Htext. cbn [fst]. rewrite <- strip_empty_iff. split.
  - intros [= Hs]. exact Hs.
  - intros ->. reflexivity.
Qed.

End PathBasedEdges.

(** ** What every returned result looks like *)

Section Results.
Context {Image Exn : Type} `{TC : Toolchain Image Exn}.

(** Whatever the engine answers, a list the loop returns has one entry
    per page, numbered on from [i], each text stripped. *)
Lemma ocr_pages_returns (self : nat) (pages : list Image) :
  forall (i : Z) (acc result : list (Z * pystr)) (w : World Image),
  fst (ocr_pages self i pages acc w) = inr result ->
  exists texts : list pystr,
    length texts = length pages
    /\ result = acc ++ zip (seqZ i (Z.of_nat (length pages)))
                          (strip <$> texts).
Proof.
  induction pages as [|page pages IH]; intros i acc result w Hrun.
  - exists []. split; [reflexivity|]. cbn in Hrun. injection Hrun as <-.
    cbn. rewrite app_nil_r. reflexivity.
  - cbn [ocr_pages] in Hrun. unfold bind at 1 in Hrun. unfold get_lang in Hrun.
    destruct (objects w !! self) as [o|]; [|discriminate].
    unfold bind at 1 in Hrun. unfold image_to_string in Hrun.
    destruct (recognize (tesseract_cmd w) page (lang o)) as [e|text];
      cbn [external] in Hrun; [discriminate|].
    destruct (IH _ _ _ _ Hrun) as (texts & Hlen & ->).
    exists (text :: texts). split; [cbn; congruence|].
    cbn [length]. rewrite seqZ_succ. cbn [fmap list_fmap zip zip_with].
    rewrite <- app_assoc. reflexivity.
Qed.

Lemma numbered_well_formed (texts : list pystr) :
  well_formed_result
    (zip (seqZ 1 (Z.of_nat (length texts))) (strip <$> texts)).
Proof.
  assert (Hlen : length (seqZ 1 (Z.of_nat (length texts)))
                 = length (strip <$> texts)).
  { rewrite length_seqZ, length_fmap. lia. }
  split.
  - rewrite length_zip, Hlen, length_fmap, Nat.min_id.
    apply fst_zip. lia.
  - apply Forall_forall. intros entry Hin.
    apply list_elem_of_lookup in Hin as [k Hk].
    apply lookup_zip_with_Some in Hk as (n & t & -> & _ & Ht).
    rewrite list_lookup_fmap in Ht.
    destruct (texts !! k) as [text|]; [|discriminate].
    injection Ht as <-. cbn. apply strip_idempotent.
Qed.

Lemma extract_text_from_pdf_returns (self : nat) (pdf_path : pystr)
    (dpi : option Z) (result : list (Z * pystr)) (w : World Image) :
  fst (extract_text_from_pdf self pdf_path dpi w) = inr result ->
  well_formed_result result.
Proof.
  unfold extract_text_from_pdf, bind, convert_from_path.
  destruct (rasterize (files w !! pdf_path) (default 300%Z dpi))
    as [e|pages]; cbn [external]; [discriminate|].
  intros Hrun. destruct (ocr_pages_returns _ _ _ _ _ _ Hrun)
    as (texts & Hlen & ->).
  cbn [app]. rewrite <- Hlen. apply numbered_well_formed.
Qed.

Lemma extract_text_from_image_returns (self : nat) (image_path : pystr)
    (result : list (Z * pystr)) (w : World Image) :
  fst (extract_text_from_image self image_path w) = inr result ->
  well_formed_result result.
Proof.
  unfold extract_text_from_image, bind, Image_open.
  destruct (decode_image (files w !! image_path)) as [e|image];
    cbn [external]; [discriminate|].
  unfold get_lang. cbn [objects record_call].
  destruct (objects w !! self) as [o|]; [|discriminate].
  unfold image_to_string. cbn [tesseract_cmd record_call].
  destruct (recognize (tesseract_cmd w) image (lang o)) as [e|text];
    cbn [external]; [discriminate|].
  intros [= <-]. apply (numbered_well_formed [text]).
Qed.

(** X7.  Whatever the rasteriser, the image library and the engine
    answer, a list that any of the three operations returns is well
    formed: its page numbers are exactly 1, 2, ..., up to its length, in
    this order, and every text in it is free of whitespace at both
    ends. *)
Theorem returned_result_well_formed (self : nat) (o : OCRService) (op : Op)
    (result : list (Z * pystr)) (w : World Image) :
  objects w !! self = Some o ->
  fst (run_op self op w) = inr result ->
  well_formed_result result.
Proof.
  intros Ho. destruct op as [pdf_path dpi|image_path|file_bytes file_type];
    cbn [run_op].
  - apply extract_text_from_pdf_returns.
  - apply extract_text_from_image_returns.
  - rewrite (extract_from_bytes_outcome self o _ _ _ Ho).
    destruct (tmp_stem _ _) as [e|stem]; [discriminate|]. cbv zeta.
    destruct (write_error _ _ _); [discriminate|].
    destruct (unlink_error _ _); [discriminate|].
    unfold dispatch. destruct (decide (file_type = lit "pdf")).
    + apply extract_text_from_pdf_returns.
    + apply extract_text_from_image_returns.
Qed.

(** X8.  Whether they return or raise, the path-based methods make
    none of the three calls on a temporary file themselves.  The calls of
    [extract_text_from_pdf] are one rasterisation of the path it was
    given, at the dpi of the call, followed by recognitions only; the
    calls of [extract_text_from_image] are one opening of the path it was
    given, followed by at most one recognition. *)
Theorem path_based_methods_make_no_file_calls (self : nat) (o : OCRService)
    (w : World Image) :
  objects w !! self = Some o ->
  (forall pdf_path dpi,
     exists seen : list Image,
       new_calls w (snd (extract_text_from_pdf self pdf_path dpi w))
       = EvRasterize pdf_path (default 300%Z dpi)
         :: ((fun page => EvRecognize (tesseract_cmd w) page (lang o))
               <$> seen)
       /\ Forall no_file_call
            (new_calls w (snd (extract_text_from_pdf self pdf_path dpi w))))
  /\ (forall image_path,
        exists seen : list Image,
          length seen <= 1
          /\ new_calls w (snd (extract_text_from_image self image_path w))
             = EvOpen image_path
               :: ((fun page => EvRecognize (tesseract_cmd w) page (lang o))
                     <$> seen)
          /\ Forall no_file_call
               (new_calls w
                  (snd (extract_text_from_image self image_path w)))).
Proof.
  intros Ho.
  assert (Hrec : forall seen : list Image,
             Forall no_file_call
               ((fun page => EvRecognize (tesseract_cmd w) page (lang o))
                  <$> seen)).
  { intros seen. apply Forall_fmap, Forall_forall. intros page _. exact I. }
  split.
  - intros pdf_path dpi.
    destruct (extract_text_from_pdf_effect self o pdf_path dpi w Ho)
      as [seen ->].
    exists seen. rewrite new_calls_add.
    split; [reflexivity|]. constructor; [exact I | apply Hrec].
  - intros image_path.
    unfold extract_text_from_image, bind, Image_open.
    destruct (decode_image (files w !! image_path)) as [e|image];
      cbn [external].
    + exists []. cbn [snd]. rewrite record_call_add, new_calls_add.
      repeat split; [cbn; lia | repeat constructor].
    + exists [image]. unfold get_lang. cbn [objects record_call].
      rewrite Ho. unfold image_to_string. cbn [tesseract_cmd record_call].
      assert (Hnew : new_calls w
                (record_call (EvRecognize (tesseract_cmd w) image (lang o))
                   (record_call (EvOpen image_path) w))
              = [EvOpen image_path;
                 EvRecognize (tesseract_cmd w) image (lang o)]).
      { rewrite !record_call_add, add_calls_add. apply new_calls_add. }
      destruct (recognize (tesseract_cmd w) image (lang o)) as [e|text];
        cbn [external]; unfold ret; cbn [snd]; rewrite Hnew;
        (repeat split; [cbn; lia | repeat constructor]).
Qed.

(** X9.  Calling a path-based method a second time, right after the
    first call, gives the outcome of the first call again: the first call
    changed nothing that the second one reads. *)
Theorem path_based_methods_repeatable (self : nat) (o : OCRService)
    (w : World Image) :
  objects w !! self = Some o ->
  (forall pdf_path dpi,
     fst (extract_text_from_pdf self pdf_path dpi
            (snd (extract_text_from_pdf self pdf_path dpi w)))
     = fst (extract_text_from_pdf self pdf_path dpi w))
  /\ (forall image_path,
        fst (extract_text_from_image self image_path
               (snd (extract_text_from_image self image_path w)))
        = fst (extract_text_from_image self image_path w)).
Proof.
  intros Ho. split.
  - intros pdf_path dpi.
    destruct (extract_text_from_pdf_effect self o pdf_path dpi w Ho)
      as [seen Hseen].
    apply extract_text_from_pdf_result_ext; rewrite Hseen; reflexivity.
  - intros image_path.
    destruct (extract_text_from_image_effect self o image_path w Ho)
      as [seen Hseen].
    apply extract_text_from_image_result_ext; rewrite Hseen; reflexivity.
Qed.

End Results.

(** ** The temporary file and the other files *)

Section TemporaryFile.
Context {Image Exn : Type} `{TC : Toolchain Image Exn}.

Lemma rasterizations_app (evs1 evs2 : list (Event Image)) :
  rasterizations (evs1 ++ evs2) = rasterizations evs1 ++ rasterizations evs2.
Proof. apply omap_app. Qed.

Lemma opens_app (evs1 evs2 : list (Event Image)) :
  opens (evs1 ++ evs2) = opens evs1 ++ opens evs2.
Proof. apply omap_app. Qed.

Lemma opens_recognize (cmd l : pystr) (seen : list Image) :
  opens ((fun page => EvRecognize cmd page l) <$> seen) = [].
Proof. induction seen as [|page seen IH]; [reflexivity | exact IH]. Qed.

Lemma first_call_not_pdf (file_type p : pystr) :
  file_type <> lit "pdf" ->
  first_call (Image := Image) file_type p = EvOpen p.
Proof.
  intros Hne. unfold first_call.
  destruct (decide (file_type = lit "pdf")); [contradiction | reflexivity].
Qed.

(** X10.  [extract_from_bytes] touches no file but its temporary file:
    on every path through the call (staging refused, dispatched method
    returning or raising, deletion refused) every other file is after the
    call what it was before. *)
Theorem extract_from_bytes_other_files (self : nat) (o : OCRService)
    (file_bytes : bytes) (file_type other : pystr) (w : World Image) :
  objects w !! self = Some o ->
  (forall stem, tmp_stem (files w) (lit "." ++ file_type) = inr stem ->
                other <> tmp_name stem file_type) ->
  files (snd (extract_from_bytes self file_bytes file_type w)) !! other
  = files w !! other.
Proof.
  intros Ho Hother.
  destruct (tmp_stem (files w) (lit "." ++ file_type)) as [e|stem] eqn:Hstem.
  { rewrite (extract_from_bytes_create_fails _ _ _ _ _ Hstem). reflexivity. }
  pose proof (Hother stem eq_refl) as Hne.
  destruct (write_error (<[tmp_name stem file_type := []]> (files w))
              (tmp_name stem file_type) file_bytes) as [e|] eqn:Hwrite.
  { rewrite (extract_from_bytes_write_fails _ _ _ _ _ _ Hstem Hwrite).
    cbn [snd files set_files]. apply lookup_insert_ne. congruence. }
  destruct (extract_from_bytes_staged self o file_bytes file_type stem w
              Ho Hstem Hwrite) as [seen ->].
  cbv zeta. destruct (unlink_error _ _); cbn [snd files set_files].
  - apply lookup_insert_ne. congruence.
  - rewrite lookup_delete_ne by congruence.
    apply lookup_insert_ne. congruence.
Qed.

(** X11.  When the operating system gives the temporary file a name that
    is not in use, and the staging and the deletion succeed, the files
    after [extract_from_bytes] are exactly the files before it, whether
    the dispatched method returned or raised. *)
Theorem extract_from_bytes_restores_files (self : nat) (o : OCRService)
    (file_bytes : bytes) (file_type stem : pystr) (w : World Image) :
  objects w !! self = Some o ->
  tmp_stem (files w) (lit "." ++ file_type) = inr stem ->
  files w !! tmp_name stem file_type = None ->
  write_error (<[tmp_name stem file_type := []]> (files w))
              (tmp_name stem file_type) file_bytes = None ->
  unlink_error (<[tmp_name stem file_type := file_bytes]> (files w))
               (tmp_name stem file_type) = None ->
  files (snd (extract_from_bytes self file_bytes file_type w)) = files w.
Proof.
  intros Ho Hstem Hfresh Hwrite Hunlink.
  destruct (extract_from_bytes_staged self o file_bytes file_type stem w
              Ho Hstem Hwrite) as [seen ->].
  cbv zeta. rewrite Hunlink. cbn [snd files set_files].
  apply delete_insert_id. exact Hfresh.
Qed.

(** X12.  Only the exact string ["pdf"] selects the PDF method.  With any
    other [file_type] (["PDF"], ["jpg"], the empty string)
    [extract_from_bytes] never rasterises, and once the bytes are staged
    it opens the temporary file as an image, once. *)
Theorem extract_from_bytes_not_pdf (self : nat) (o : OCRService)
    (file_bytes : bytes) (file_type : pystr) (w : World Image) :
  objects w !! self = Some o ->
  file_type <> lit "pdf" ->
  let w' := snd (extract_from_bytes self file_bytes file_type w) in
  rasterizations (new_calls w w') = []
  /\ (forall stem,
        tmp_stem (files w) (lit "." ++ file_type) = inr stem ->
        write_error (<[tmp_name stem file_type := []]> (files w))
                    (tmp_name stem file_type) file_bytes = None ->
        opens (new_calls w w') = [tmp_name stem file_type]).
Proof.
  intros Ho Hne w'. subst w'.
  assert (Hnew : forall fs evs,
             new_calls w (set_files fs (add_calls evs w)) = evs).
  { intros fs evs. apply new_calls_app. reflexivity. }
  destruct (tmp_stem (files w) (lit "." ++ file_type)) as [e|stem] eqn:Hstem.
  { rewrite (extract_from_bytes_create_fails _ _ _ _ _ Hstem).
    cbn [snd]. rewrite new_calls_add. split; [reflexivity|].
    intros stem [=]. }
  destruct (write_error (<[tmp_name stem file_type := []]> (files w))
              (tmp_name stem file_type) file_bytes) as [e|] eqn:Hwrite.
  { rewrite (extract_from_bytes_write_fails _ _ _ _ _ _ Hstem Hwrite).
    cbn [snd]. rewrite Hnew. split; [reflexivity|].
    intros stem' [= <-]. rewrite Hwrite. intros [=]. }
  destruct (extract_from_bytes_staged self o file_bytes file_type stem w
              Ho Hstem Hwrite) as [seen ->].
  cbv zeta. rewrite (first_call_not_pdf _ _ Hne).
  destruct (unlink_error _ _); cbn [snd]; rewrite Hnew;
    rewrite !rasterizations_app, !opens_app, rasterizations_recognize,
      opens_recognize;
    (split; [reflexivity|]); intros stem' [= <-] _; reflexivity.
Qed.

(** X13.  Once the bytes are staged, the calls of [extract_from_bytes]
    come in this order: the creation of the temporary file with the
    suffix ["." + file_type], the write of the bytes into it, the
    dispatched method on that very file (a rasterisation at 300 dpi or an
    opening, then recognitions only), and last the deletion of that
    file. *)
Theorem extract_from_bytes_call_order (self : nat) (o : OCRService)
    (file_bytes : bytes) (file_type stem : pystr) (w : World Image) :
  objects w !! self = Some o ->
  tmp_stem (files w) (lit "." ++ file_type) = inr stem ->
  write_error (<[tmp_name stem file_type := []]> (files w))
              (tmp_name stem file_type) file_bytes = None ->
  exists seen : list Image,
    new_calls w (snd (extract_from_bytes self file_bytes file_type w))
    = [EvTmpCreate (lit "." ++ file_type);
       EvWrite (tmp_name stem file_type) file_bytes;
       first_call file_type (tmp_name stem file_type)]
      ++ ((fun page => EvRecognize (tesseract_cmd w) page (lang o)) <$> seen)
      ++ [EvUnlink (tmp_name stem file_type)].
Proof.
  intros Ho Hstem Hwrite.
  destruct (extract_from_bytes_staged self o file_bytes file_type stem w
              Ho Hstem Hwrite) as [seen ->].
  exists seen. cbv zeta.
  destruct (unlink_error _ _); cbn [snd]; apply new_calls_app; reflexivity.
Qed.

End TemporaryFile.

(** ** Instances and the shared executable path *)

Section Instances.
Context {Image Exn : Type} `{TC : Toolchain Image Exn}.

(** X14.  Constructing another [OCRService] changes the behaviour of the
    instances that exist: whatever executable path was configured before,
    every later operation of an older instance calls the engine through
    ["/usr/bin/tesseract"].  The language of the older instance is not
    affected: it still extracts in its own language. *)
Theorem construction_resets_executable_for_all (lang_arg : option pystr)
    (self : nat) (o : OCRService) (op : Op) (w : World Image) :
  objects w !! self = Some o ->
  let w1 := snd (OCRService_init (Exn := Exn) lang_arg w) in
  objects w1 !! self = Some o
  /\ Forall (fun r => r = (lit "/usr/bin/tesseract", r.1.2, lang o))
            (recognitions (new_calls w1 (snd (run_op self op w1)))).
Proof.
  intros Ho w1.
  assert (Ho1 : objects w1 !! self = Some o).
  { subst w1. cbn [snd OCRService_init objects].
    apply lookup_app_l_Some. exact Ho. }
  split; [exact Ho1|].
  destruct (run_op_events self o op w1 Ho1) as (evs & Hcalls & _ & _ & Hok).
  rewrite (new_calls_app _ _ _ Hcalls).
  eapply Forall_impl; [exact (recognitions_ok _ _ _ _ Hok)|].
  intros [[cmd page] l] [Hc Hl]. cbn in *. subst. reflexivity.
Qed.

End Instances.

(** ** The further properties at work *)

Lemma extract_text_from_pdf_invalid_document_witness :
  fst (extract_text_from_pdf (TC := Sim.toolchain (Sim.fine Sim.tamil_doc))
         0 Sim.scan (Some 150%Z) Sim.started)
  = inl (External "PDFPageCountError: unable to get page count")
  /\ new_calls Sim.started
       (snd (extract_text_from_pdf
               (TC := Sim.toolchain (Sim.fine Sim.tamil_doc))
               0 Sim.scan (Some 150%Z) Sim.started))
     = [EvRasterize Sim.scan 150%Z]
  /\ files (snd (extract_text_from_pdf
                   (TC := Sim.toolchain (Sim.fine Sim.tamil_doc))
                   0 Sim.scan (Some 150%Z) Sim.started))
     = files Sim.started.
Proof.
  apply (extract_text_from_pdf_invalid_document
           (TC := Sim.toolchain (Sim.fine Sim.tamil_doc))
           0 Sim.scan (Some 150%Z)
           "PDFPageCountError: unable to get page count" Sim.started).
  reflexivity.
Defined.

Lemma extract_text_from_pdf_no_pages_witness :
  fst (extract_text_from_pdf (TC := Sim.toolchain (Sim.fine []))
         0 Sim.scan None (Sim.with_file Sim.some_bytes)) = inr []
  /\ recognitions
       (new_calls (Sim.with_file Sim.some_bytes)
          (snd (extract_text_from_pdf (TC := Sim.toolchain (Sim.fine []))
                  0 Sim.scan None (Sim.with_file Sim.some_bytes)))) = [].
Proof.
  apply (extract_text_from_pdf_no_pages (TC := Sim.toolchain (Sim.fine []))
           0 Sim.scan None (Sim.with_file Sim.some_bytes)).
  vm_compute. reflexivity.
Defined.

Lemma extract_text_from_pdf_one_call_per_page_witness :
  new_calls (Sim.with_file Sim.some_bytes)
    (snd (extract_text_from_pdf
            (TC := Sim.toolchain (Sim.fine Sim.tamil_doc))
            0 Sim.scan None (Sim.with_file Sim.some_bytes)))
  = EvRasterize Sim.scan 300%Z
    :: ((fun page => EvRecognize (lit "/usr/bin/tesseract") page (lit "tam"))
          <$> Sim.tamil_doc).
Proof.
  apply (extract_text_from_pdf_one_call_per_page
           (TC := Sim.toolchain (Sim.fine Sim.tamil_doc))
           0 Sim.tam Sim.scan None Sim.tamil_doc Sim.tamil_doc
           (Sim.with_file Sim.some_bytes)).
  - reflexivity.
  - vm_compute. reflexivity.
  - repeat (constructor; [vm_compute; reflexivity|]). constructor.
Defined.

Lemma extract_text_from_image_invalid_document_witness :
  fst (extract_text_from_image (TC := Sim.toolchain (Sim.fine Sim.tamil_doc))
         0 Sim.scan (Sim.with_file []))
  = inl (External "UnidentifiedImageError")
  /\ new_calls (Sim.with_file [])
       (snd (extract_text_from_image
               (TC := Sim.toolchain (Sim.fine Sim.tamil_doc))
               0 Sim.scan (Sim.with_file [])))
     = [EvOpen Sim.scan].
Proof.
  apply (extract_text_from_image_invalid_document
           (TC := Sim.toolchain (Sim.fine Sim.tamil_doc))
           0 Sim.scan "UnidentifiedImageError" (Sim.with_file [])).
  vm_compute. reflexivity.
Defined.

Lemma extract_text_from_image_engine_failure_witness :
  fst (extract_text_from_image (TC := Sim.toolchain (Sim.fine [[0%N]]))
         0 Sim.scan (Sim.with_file Sim.some_bytes))
  = inl (External "TesseractError")
  /\ new_calls (Sim.with_file Sim.some_bytes)
       (snd (extract_text_from_image (TC := Sim.toolchain (Sim.fine [[0%N]]))
               0 Sim.scan (Sim.with_file Sim.some_bytes)))
     = [EvOpen Sim.scan;
        EvRecognize (lit "/usr/bin/tesseract") [0%N] (lit "tam")].
Proof.
  apply (extract_text_from_image_engine_failure
           (TC := Sim.toolchain (Sim.fine [[0%N]]))
           0 Sim.tam Sim.scan [0%N] "TesseractError"
           (Sim.with_file Sim.some_bytes)).
  - reflexivity.
  - vm_compute. reflexivity.
  - vm_compute. reflexivity.
Defined.

Lemma extract_text_from_image_blank_witness :
  fst (extract_text_from_image (TC := Sim.toolchain (Sim.fine [[10; 12]%N]))
         0 Sim.scan (Sim.with_file Sim.some_bytes)) = inr [(1%Z, [])]
  <-> Forall (fun c => isspace c = true) [10; 12]%N.
Proof.
  apply (extract_text_from_image_blank
           (TC := Sim.toolchain (Sim.fine [[10; 12]%N]))
           0 Sim.tam Sim.scan [10; 12]%N [10; 12]%N
           (Sim.with_file Sim.some_bytes)).
  - reflexivity.
  - vm_compute. reflexivity.
  - vm_compute. reflexivity.
Defined.

Lemma returned_result_well_formed_witness :
  well_formed_result [(1%Z, Sim.vanakkam); (2%Z, Sim.ulagam); (3%Z, [])].
Proof.
  apply (returned_result_well_formed
           (TC := Sim.toolchain (Sim.fine Sim.tamil_doc))
           0 Sim.tam (OpBytes Sim.some_bytes (lit "pdf"))
           [(1%Z, Sim.vanakkam); (2%Z, Sim.ulagam); (3%Z, [])] Sim.started).
  - reflexivity.
  - vm_compute. reflexivity.
Defined.

Lemma path_based_methods_make_no_file_calls_witness :
  exists seen : list pystr,
    new_calls (Sim.with_file Sim.some_bytes)
      (snd (extract_text_from_pdf
              (TC := Sim.toolchain (Sim.fine Sim.damaged_doc))
              0 Sim.scan None (Sim.with_file Sim.some_bytes)))
    = EvRasterize Sim.scan 300%Z
      :: ((fun page => EvRecognize (lit "/usr/bin/tesseract") page (lit "tam"))
            <$> seen)
    /\ Forall no_file_call
         (new_calls (Sim.with_file Sim.some_bytes)
            (snd (extract_text_from_pdf
                    (TC := Sim.toolchain (Sim.fine Sim.damaged_doc))
                    0 Sim.scan None (Sim.with_file Sim.some_bytes)))).
Proof.
  apply (proj1 (path_based_methods_make_no_file_calls
                  (TC := Sim.toolchain (Sim.fine Sim.damaged_doc))
                  0 Sim.tam (Sim.with_file Sim.some_bytes) eq_refl)
           Sim.scan None).
Defined.

Lemma path_based_methods_repeatable_witness :
  fst (extract_text_from_image (TC := Sim.toolchain (Sim.fine Sim.tamil_doc))
         0 Sim.scan
         (snd (extract_text_from_image
                 (TC := Sim.toolchain (Sim.fine Sim.tamil_doc))
                 0 Sim.scan (Sim.with_file Sim.some_bytes))))
  = fst (extract_text_from_image
           (TC := Sim.toolchain (Sim.fine Sim.tamil_doc))
           0 Sim.scan (Sim.with_file Sim.some_bytes)).
Proof.
  apply (proj2 (path_based_methods_repeatable
                  (TC := Sim.toolchain (Sim.fine Sim.tamil_doc))
                  0 Sim.tam (Sim.with_file Sim.some_bytes) eq_refl)
           Sim.scan).
Defined.

Lemma extract_from_bytes_other_files_witness :
  files (snd (extract_from_bytes
                (TC := Sim.toolchain (Sim.locked Sim.damaged_doc))
                0 Sim.some_bytes (lit "pdf") (Sim.with_file Sim.some_bytes)))
    !! Sim.scan
  = files (Sim.with_file Sim.some_bytes) !! Sim.scan.
Proof.
  apply (extract_from_bytes_other_files
           (TC := Sim.toolchain (Sim.locked Sim.damaged_doc))
           0 Sim.tam Sim.some_bytes (lit "pdf") Sim.scan
           (Sim.with_file Sim.some_bytes)).
  - reflexivity.
  - intros stem Hstem. injection Hstem as <-. vm_compute. discriminate.
Defined.

Lemma extract_from_bytes_restores_files_witness :
  files (snd (extract_from_bytes
                (TC := Sim.toolchain (Sim.fine Sim.damaged_doc))
                0 Sim.some_bytes (lit "pdf") (Sim.with_file Sim.some_bytes)))
  = files (Sim.with_file Sim.some_bytes).
Proof.
  apply (extract_from_bytes_restores_files
           (TC := Sim.toolchain (Sim.fine Sim.damaged_doc))
           0 Sim.tam Sim.some_bytes (lit "pdf") Sim.stem
           (Sim.with_file Sim.some_bytes)).
  - reflexivity.
  - reflexivity.
  - vm_compute. reflexivity.
  - reflexivity.
  - reflexivity.
Defined.

Lemma extract_from_bytes_not_pdf_witness :
  let w' := snd (extract_from_bytes
                   (TC := Sim.toolchain (Sim.fine Sim.tamil_doc))
                   0 Sim.some_bytes (lit "PDF") Sim.started) in
  rasterizations (new_calls Sim.started w') = []
  /\ opens (new_calls Sim.started w') = [tmp_name Sim.stem (lit "PDF")].
Proof.
  pose proof (extract_from_bytes_not_pdf
                (TC := Sim.toolchain (Sim.fine Sim.tamil_doc))
                0 Sim.tam Sim.some_bytes (lit "PDF") Sim.started eq_refl)
    as Hthm.
  assert (Hne : lit "PDF" <> lit "pdf").
  { intros Heq. vm_compute in Heq. discriminate Heq. }
  destruct (Hthm Hne) as [Hraster Hopens].
  split; [exact Hraster|]. apply (Hopens Sim.stem); reflexivity.
Defined.

Lemma extract_from_bytes_call_order_witness :
  exists seen : list pystr,
    new_calls Sim.started
      (snd (Sim.pdf_of_bytes (Sim.fine Sim.damaged_doc) Sim.some_bytes))
    = [EvTmpCreate (lit "." ++ lit "pdf");
       EvWrite (tmp_name Sim.stem (lit "pdf")) Sim.some_bytes;
       first_call (lit "pdf") (tmp_name Sim.stem (lit "pdf"))]
      ++ ((fun page => EvRecognize (tesseract_cmd Sim.started) page
                         (lang Sim.tam)) <$> seen)
      ++ [EvUnlink (tmp_name Sim.stem (lit "pdf"))].
Proof.
  apply (extract_from_bytes_call_order
           (TC := Sim.toolchain (Sim.fine Sim.damaged_doc))
           0 Sim.tam Sim.some_bytes (lit "pdf") Sim.stem Sim.started).
  - reflexivity.
  - reflexivity.
  - reflexivity.
Defined.

Lemma construction_resets_executable_for_all_witness :
  let w := mkWorld (files Sim.started) (lit "/opt/bin/tesseract")
                   (objects Sim.started) [] in
  let w1 := snd (OCRService_init (Exn := string) (Some (lit "eng")) w) in
  objects w1 !! 0 = Some Sim.tam
  /\ Forall (fun r => r = (lit "/usr/bin/tesseract", r.1.2, lit "tam"))
       (recognitions
          (new_calls w1
             (snd (run_op (TC := Sim.toolchain (Sim.fine Sim.tamil_doc))
                     0 (OpBytes Sim.some_bytes (lit "pdf")) w1)))).
Proof.
  apply (construction_resets_executable_for_all
           (TC := Sim.toolchain (Sim.fine Sim.tamil_doc))
           (Some (lit "eng")) 0 Sim.tam
           (OpBytes Sim.some_bytes (lit "pdf"))
           (mkWorld (files Sim.started) (lit "/opt/bin/tesseract")
                    (objects Sim.started) [])).
  reflexivity.
Defined.
